(** * CALC: the [ultratest] management command and the data-capture admin

    A shallow embedding of [meta/management/commands/ultratest.py] and of
    [data_capture/admin.py], followed by the properties their specification
    states about them.

    Conventions of the embedding:
    - a Python [str] is a [string]; the double-quote character, the escape
      character and the line feed are built from their ASCII codes;
    - a Python exception is a value of [exception]; a function that may raise
      returns [exception + A] (left: raised, right: returned);
    - what the terminal and the operating system see is a list of [event]s,
      oldest first;
    - the [float] read from the coverage report is a binary64 primitive float,
      with IEEE subtraction and comparison, as in CPython. *)

From Stdlib Require Import PrimFloat ZArith Ascii String List DecimalString DecimalNat.
From stdpp Require Import gmap strings list fin_maps.

Local Open Scope string_scope.
Local Open Scope list_scope.
Local Open Scope nat_scope.
Set Warnings "-register-all".

(** ** Exceptions and the monad of computations that may raise *)

Inductive exception :=
  | CommandError (msg : string)
  | TypeError
  | KeyError (key : string)
  | Exception (msg : string).

Definition raise {A} (e : exception) : exception + A := inl e.

#[global] Instance result_ret : MRet (sum exception) := λ A a, inr a.
#[global] Instance result_bind : MBind (sum exception) :=
  λ A B k m, match m with inl e => inl e | inr a => k a end.

(** A list comprehension whose body may raise: elements are evaluated left to
    right and the first exception ends the comprehension. *)
Fixpoint comprehension {A B} (f : A → exception + B) (l : list A) : exception + list B :=
  match l with
  | [] => mret []
  | a :: l' => b ← f a; bs ← comprehension f l'; mret (b :: bs)
  end.

(** ** Characters that cannot be typed inside a literal *)

Definition dquote : string := String (ascii_of_nat 34) EmptyString.
Definition ESC : string := String (ascii_of_nat 27) EmptyString.
Definition LF : string := String (ascii_of_nat 10) EmptyString.

(** [sep.join(l)] *)
Definition join (sep : string) (l : list string) : string := String.concat sep l.

(** [s * n] *)
Fixpoint repeat_str (s : string) (n : nat) : string :=
  match n with
  | O => EmptyString
  | S n' => s +:+ repeat_str s n'
  end.

(** [str(i)] for a non-negative integer. *)
Definition str_of_nat (i : nat) : string := NilZero.string_of_uint (Nat.to_uint i).

(** [s.splitlines()] for text whose only line boundary is the line feed. *)
Fixpoint splitlines_aux (s : string) (cur : string) : list string :=
  match s with
  | EmptyString => if decide (cur = EmptyString) then [] else [cur]
  | String c s' =>
      if decide (c = ascii_of_nat 10)
      then cur :: splitlines_aux s' EmptyString
      else splitlines_aux s' (cur +:+ String c EmptyString)
  end.
Definition splitlines (s : string) : list string := splitlines_aux s EmptyString.

(** [zip(a, b)] *)
Fixpoint zip {A B} (a : list A) (b : list B) : list (A * B) :=
  match a, b with
  | x :: a', y :: b' => (x, y) :: zip a' b'
  | _, _ => []
  end.

(** * The [ultratest] command *)

Module Ultratest.

(** ** What the command prints and starts *)

Inductive color := green | red.

(** The text handed to [click.secho]. A text produced by a [{:.2%}] format is
    kept as the format it came from and its argument. *)
Inductive message :=
  | text (s : string)
  | coverage_is (x : float)     (* 'Coverage: {:.2%}'.format(x) *)
  | delta_down (d : float)      (* ' ({:.2%} from last run)'.format(d) *)
  | delta_up (d : float).       (* ' (+{:.2%} from last run)'.format(d) *)

Inductive event :=
  | print (s : string)                                   (* print(s) *)
  | secho (msg : message) (nl : bool) (fg : option color) (* click.secho(msg, nl=nl, fg=fg) *)
  | call (cmd : string) (captured : bool)                (* subprocess.call(cmd, stdout=out, shell=True) *)
  | streamed (output : string)                           (* the child writes to the inherited stdout *)
  | write (output : string).                             (* sys.stdout.buffer.write(output) *)

(** How the command ends: [sys.exit(code)], or an exception that leaves
    [command] uncaught. *)
Inductive outcome :=
  | Exit (code : Z)
  | Raised (e : exception).

(** ** The world around the command *)

(** What [subprocess.call] does: the child ends with a return code, having
    written [output], or Ctrl-C reaches the command while it waits. *)
Inductive call_result :=
  | Returned (result : Z) (output : string)
  | KeyboardInterrupt.

(** An XML element: tag, attribute dictionary, children in document order.
    An attribute text is kept as what [float()] makes of it. *)
Inductive attr_text :=
  | Numeric (x : float)     (* float(text) returns x *)
  | NotNumeric (s : string). (* float(text) raises ValueError *)

Inductive element :=
  | Element (tag : string) (attrib : gmap string attr_text) (children : list element).

Definition tag (e : element) : string := let 'Element t _ _ := e in t.
Definition attrib (e : element) : gmap string attr_text := let 'Element _ a _ := e in a.
Definition children (e : element) : list element := let 'Element _ _ c := e in c.

(** What [etree.parse('coverage.xml')] meets. *)
Inductive xml_file :=
  | NoSuchFile
  | Malformed
  | Document (root : element).

Record world := {
  IS_RUNNING_IN_DOCKER : bool;
  (** the result of the [i]-th [subprocess.call] of the run, counted from 0 *)
  subprocess_call : nat → call_result;
  (** [coverage.xml] when the command starts and when the tools have run *)
  coverage_xml_before : xml_file;
  coverage_xml_after : xml_file;
}.

(** ** The banner *)

Definition RAINBOW_COLORS : list string :=
  map (λ color, ESC +:+ "[38;5;" +:+ color)
    [ "160;01m"; "196;01m"; "202;01m"; "208;01m"; "214;01m"; "220;01m"; "226;01m";
      "190;01m"; "154;01m"; "118;01m"; "046;01m"; "047;01m"; "048;01m"; "049;01m";
      "051;01m"; "039;01m"; "027;01m"; "021;01m"; "021;01m"; "057;01m"; "093;01m" ].

Definition RESET_COLORS : string := ESC +:+ "[m".

Definition ASCII_ART_LOGO : string :=
"  _    _ _ _          _______        _
 | |  | | | |        |__   __|      | |
 | |  | | | |_ _ __ __ _| | ___  ___| |_
 | |  | | | __| '__/ _` | |/ _ \/ __| __|
 | |__| | | |_| | | (_| | |  __/\__ \ |_
  \____/|_|\__|_|  \__,_|_|\___||___/\__|".

Definition print_with_rainbow_colors (ascii_art : string) : list event :=
  map (λ '(color, line), print (color +:+ line)) (zip RAINBOW_COLORS (splitlines ascii_art))
  ++ [print RESET_COLORS].

(** ** Reading the coverage report *)

Inductive coverage_error :=
  | ParseFailed          (* etree.parse raises: no file, or not XML *)
  | NoPackage            (* find returns None, so .attrib raises AttributeError *)
  | NoBranchRate         (* attrib['branch-rate'] raises KeyError *)
  | BadBranchRate.       (* float raises ValueError *)

(** [e.find(path)] for a path of plain tags, given as its steps: the first
    element, in document order, reached by following the tags from [e]. *)
Fixpoint findall (path : list string) (e : element) : list element :=
  match path with
  | [] => [e]
  | t :: path' =>
      flat_map (findall path') (filter (λ c, tag c = t) (children e))
  end.
Definition find (path : list string) (e : element) : option element :=
  head (findall path e).

(** The body of the [try] of [get_coverage]. *)
Definition read_branch_rate (f : xml_file) : coverage_error + float :=
  match f with
  | NoSuchFile | Malformed => inl ParseFailed
  | Document root =>
      match find ["packages"; "package"] root with
      | None => inl NoPackage
      | Some package =>
          match attrib package !! "branch-rate" with
          | None => inl NoBranchRate
          | Some (NotNumeric _) => inl BadBranchRate
          | Some (Numeric x) => inr x
          end
      end
  end.

(** [get_coverage()]: [None] stands for Python's [None]. *)
Definition get_coverage (f : xml_file) : option float :=
  match read_branch_rate f with
  | inl _ => None
  | inr x => Some x
  end.

(** ** The test types *)

Record testtype := { name : string; cmd : string }.

#[global] Instance testtype_eq_dec : EqDecision testtype.
Proof. solve_decision. Defined.

Definition TESTTYPES_TO_REPORT_COVERAGE_ON : list string := ["py.test"].

Definition ESLINT_CMD (w : world) : string :=
  if IS_RUNNING_IN_DOCKER w
  then "eslint --rule " +:+ dquote +:+ "import/no-unresolved: off" +:+ dquote
       +:+ " --max-warnings 0 ."
  else "npm run failable-eslint".

Definition TESTTYPES (w : world) : list testtype :=
  [ {| name := "flake8"; cmd := "flake8 --exclude=node_modules,migrations ." |};
    {| name := "eslint"; cmd := ESLINT_CMD w |};
    {| name := "bandit"; cmd := "bandit -r ." |};
    {| name := "py.test"; cmd := "py.test --cov-report xml --cov-report term --cov" |};
    {| name := "jest"; cmd := "npm test" |} ].

Definition get_testtype_names (w : world) (testtypes : list testtype) (joiner : string)
  : string :=
  let testtypes := match testtypes with [] => TESTTYPES w | _ => testtypes end in
  join joiner (map name testtypes).

Definition not_a_valid_test_type (w : world) (n : string) : string :=
  dquote +:+ n +:+ dquote +:+ " is not a valid test type. Please choose from "
  +:+ get_testtype_names w [] ", " +:+ ".".

Fixpoint lookup_testtype (n : string) (ts : list testtype) : option testtype :=
  match ts with
  | [] => None
  | t :: ts' => if decide (name t = n) then Some t else lookup_testtype n ts'
  end.

Definition get_testtype (w : world) (n : string) : exception + testtype :=
  match lookup_testtype n (TESTTYPES w) with
  | Some t => mret t
  | None => raise (CommandError (not_a_valid_test_type w n))
  end.

(** ** The command *)

(** [verbosity] is a natural number: the framework's option takes 0 to 3.
    The result of a child is an integer, and [result is not 0] on integers
    is [result != 0]. Ctrl-C is taken to arrive while the command waits for
    a child, which is where the [try] spends its time. *)

(** [echo(msg, v_level, **kwargs)], the closure of [command] over [verbosity]. *)
Definition echo (verbosity : nat) (msg : message) (v_level : nat)
    (nl : bool) (fg : option color) : list event :=
  if (verbosity <? v_level)%nat then [] else [secho msg nl fg].

(** Truth value of [coverage_before]: [None] and zero are false. *)
Definition truthy (c : option float) : bool :=
  match c with
  | None => false
  | Some x => negb (PrimFloat.eqb x 0%float)
  end.

(** What the [for entry in to_run] loop has built so far. *)
Record run_state := {
  out : list event;
  failures : list string;
  failure_outputs : list string;
}.

(** One pass of the loop body for [entry], whose [subprocess.call] is the
    [i]-th of the run. The second component is [true] when the call raised
    [KeyboardInterrupt]. *)
Definition run_entry (w : world) (verbosity : nat) (i : nat) (entry : testtype)
    (s : run_state) : run_state * bool :=
  let is_verbose := (1 <? verbosity)%nat in
  let started :=
    out s
    ++ echo verbosity (text ("-> " +:+ name entry +:+ " ")) 1 is_verbose None
    ++ echo verbosity (text ("Running " +:+ dquote +:+ cmd entry +:+ dquote)) 2 true None
    ++ [call (cmd entry) (negb is_verbose)] in
  match subprocess_call w i with
  | KeyboardInterrupt =>
      ({| out := started; failures := failures s; failure_outputs := failure_outputs s |},
       true)
  | Returned result output =>
      let live := if is_verbose then [streamed output] else [] in
      let failed := negb (result =? 0)%Z in
      let failures' := if failed then failures s ++ [name entry] else failures s in
      let failure_outputs' :=
        if failed && negb is_verbose then failure_outputs s ++ [output]
        else failure_outputs s in
      let verdict :=
        if is_verbose then []
        else if failed then echo verbosity (text "FAIL") 1 true (Some red)
        else echo verbosity (text "OK") 1 true (Some green) in
      ({| out := started ++ live ++ verdict;
          failures := failures';
          failure_outputs := failure_outputs' |},
       false)
  end.

(** The loop inside the [try]: the second component tells whether it was left
    by [KeyboardInterrupt]. *)
Fixpoint run_tests (w : world) (verbosity : nat) (i : nat) (to_run : list testtype)
    (s : run_state) : run_state * bool :=
  match to_run with
  | [] => (s, false)
  | entry :: rest =>
      match run_entry w verbosity i entry s with
      | (s', true) => (s', true)
      | (s', false) => run_tests w verbosity (S i) rest s'
      end
  end.

(** The list [to_run] chosen from the arguments. *)
Definition choose_to_run (w : world) (testtype_names : list string)
  : exception + list testtype :=
  match testtype_names with
  | [] => mret (TESTTYPES w)
  | _ => comprehension (get_testtype w) testtype_names
  end.

Definition report_failure_outputs (verbosity : nat) (s : run_state) : list event :=
  match failure_outputs s with
  | [] => []
  | _ =>
      flat_map (λ '(failure, output),
          echo verbosity (text (repeat_str "-" 78)) 0 true None
          ++ echo verbosity (text ("Output from " +:+ failure +:+ ":" +:+ LF)) 0 true (Some red)
          ++ [write output]
          ++ echo verbosity (text LF) 0 true None)
        (zip (failures s) (failure_outputs s))
  end.

(** The lines about coverage, once [coverage_after] is known to be a float. *)
Definition report_coverage_lines (verbosity : nat) (coverage_before : option float)
    (coverage_after : float) : list event :=
  echo verbosity (coverage_is coverage_after) 1 (negb (truthy coverage_before)) None
  ++ match coverage_before with
     | Some before =>
         if truthy coverage_before then
           let diff := PrimFloat.sub coverage_after before in
           if PrimFloat.ltb diff 0%float
           then echo verbosity (delta_down diff) 1 true (Some red)
           else if PrimFloat.ltb 0%float diff
           then echo verbosity (delta_up diff) 1 true (Some green)
           else echo verbosity (text " (same as last run)") 1 true None
         else []
     | None => []
     end.

(** What has been printed when the loop starts (the banner and the
    announcement of the run), with the empty lists of failures. *)
Definition start (w : world) (verbosity : nat) (to_run : list testtype) : run_state :=
  {| out :=
       print_with_rainbow_colors ASCII_ART_LOGO
       ++ (if decide (to_run = TESTTYPES w)
           then echo verbosity (text "Running ALL THE TESTS") 1 true None
           else echo verbosity (text ("Running " +:+ get_testtype_names w to_run ", "))
                  1 true None);
     failures := [];
     failure_outputs := [] |}.

Definition command (w : world) (verbosity : nat) (testtype : list string)
  : list event * outcome :=
  let testtype_names := testtype in
  match choose_to_run w testtype_names with
  | inl e => (print_with_rainbow_colors ASCII_ART_LOGO, Raised e)
  | inr to_run =>
      let report_coverage :=
        existsb (λ t, bool_decide (name t ∈ TESTTYPES_TO_REPORT_COVERAGE_ON)) to_run in
      let coverage_before :=
        if report_coverage then get_coverage (coverage_xml_before w) else None in
      let '(s, interrupted) := run_tests w verbosity 0 to_run (start w verbosity to_run) in
      let aborting :=
        if interrupted then echo verbosity (text "Aborting test run.") 0 true None else [] in
      let exit_code := if interrupted then 1%Z else 0%Z in
      let failing :=
        if 0 <? length (failures s)
        then echo verbosity (text ("Failing tests: " +:+ join ", " (failures s))) 0 true None
        else [] in
      let exit_code := if 0 <? length (failures s) then 1%Z else exit_code in
      let reported := out s ++ aborting ++ report_failure_outputs verbosity s ++ failing in
      if report_coverage then
        match get_coverage (coverage_xml_after w) with
        | None => (reported, Raised TypeError)
        | Some coverage_after =>
            (reported ++ report_coverage_lines verbosity coverage_before coverage_after,
             Exit exit_code)
        end
      else (reported, Exit exit_code)
  end.

(** The commands the run started, in order. *)
Definition calls (tr : list event) : list string :=
  flat_map (λ e, match e with call c _ => [c] | _ => [] end) tr.

(** ** Vocabulary of the properties *)

(** The five test types, by name, in the order of [TESTTYPES]. *)
Definition known_names : list string := ["flake8"; "eslint"; "bandit"; "py.test"; "jest"].

(** The names a run is asked for: the arguments, or all five when there are
    none. *)
Definition requested (testtype_names : list string) : list string :=
  match testtype_names with
  | [] => known_names
  | _ => testtype_names
  end.

(** No Ctrl-C reaches the command during the first [n] calls. *)
Definition uninterrupted (w : world) (n : nat) : Prop :=
  ∀ k, k < n → subprocess_call w k ≠ KeyboardInterrupt.

(** No Ctrl-C reaches the command during the [n] calls from the [i]-th on. *)
Definition uninterrupted_from (w : world) (i n : nat) : Prop :=
  ∀ k, k < n → subprocess_call w (i + k) ≠ KeyboardInterrupt.

(** Ctrl-C reaches the command during one of the first [n] calls. *)
Definition interrupted (w : world) (n : nat) : Prop :=
  ∃ k, k < n ∧ subprocess_call w k = KeyboardInterrupt.

(** The [k]-th call is made and its child returns a non-zero result. *)
Definition fails_at (w : world) (k : nat) : Prop :=
  uninterrupted w k ∧ ∃ result output,
    subprocess_call w k = Returned result output ∧ result ≠ 0%Z.

Definition nonzero (r : call_result) : bool :=
  match r with
  | Returned result _ => negb (result =? 0)%Z
  | KeyboardInterrupt => false
  end.

Definition output_of (r : call_result) : string :=
  match r with
  | Returned _ output => output
  | KeyboardInterrupt => EmptyString
  end.

(** The entries of [to_run] whose call returns non-zero, each with the number
    of its call; calls are numbered from [i]. *)
Definition failed_calls (w : world) (i : nat) (to_run : list testtype)
  : list (nat * testtype) :=
  filter (λ p, nonzero (subprocess_call w p.1)) (zip (seq i (length to_run)) to_run).

Definition failed_names (w : world) (i : nat) (to_run : list testtype) : list string :=
  map (λ p, name p.2) (failed_calls w i to_run).

Definition failed_outputs (w : world) (i : nat) (to_run : list testtype) : list string :=
  map (λ p, output_of (subprocess_call w p.1)) (failed_calls w i to_run).

(** A run for these arguments reports coverage. *)
Definition covers (testtype_names : list string) : Prop :=
  "py.test" ∈ requested testtype_names.

(** ** Sample worlds *)

Definition coverage_report (branch_rate : float) : xml_file :=
  Document
    (Element "coverage" ∅
       [ Element "sources" ∅ [];
         Element "packages" ∅
           [ Element "package" {[ "name" := NotNumeric "."; "branch-rate" := Numeric branch_rate ]} [] ] ]).

(** A report of a run that measured no file: its [packages] element is empty. *)
Definition empty_coverage_report : xml_file :=
  Document (Element "coverage" ∅ [ Element "sources" ∅ []; Element "packages" ∅ [] ]).

Definition all_pass : nat → call_result := λ _, Returned 0 "ok".

(** Every tool passes; coverage goes from 0.5 to 0.75. *)
Definition calm_world : world :=
  {| IS_RUNNING_IN_DOCKER := false;
     subprocess_call := all_pass;
     coverage_xml_before := coverage_report 0.5;
     coverage_xml_after := coverage_report 0.75 |}.

(** The second tool started fails, the others pass. *)
Definition second_fails_world : world :=
  {| IS_RUNNING_IN_DOCKER := false;
     subprocess_call := λ i, if decide (i = 1) then Returned 2 "E501 line too long" else Returned 0 "ok";
     coverage_xml_before := coverage_report 0.5;
     coverage_xml_after := coverage_report 0.75 |}.

(** Every tool passes, and the report written by the run has no package. *)
Definition no_package_world : world :=
  {| IS_RUNNING_IN_DOCKER := false;
     subprocess_call := all_pass;
     coverage_xml_before := coverage_report 0.5;
     coverage_xml_after := empty_coverage_report |}.

(** How an event stands to the verbosity: a child is captured exactly when
    the run is not verbose, its output streams only in a verbose run, and
    captured output is written back only in a run that is not verbose. *)
Definition well_captured (verbosity : nat) (e : event) : Prop :=
  match e with
  | call _ captured => captured = negb (1 <? verbosity)
  | streamed _ => 1 < verbosity
  | write _ => verbosity ≤ 1
  | _ => True
  end.

(** The world [w] with other coverage reports. *)
Definition with_coverage (w : world) (before after : xml_file) : world :=
  {| IS_RUNNING_IN_DOCKER := IS_RUNNING_IN_DOCKER w;
     subprocess_call := subprocess_call w;
     coverage_xml_before := before;
     coverage_xml_after := after |}.

(** The third tool started is interrupted; the first fails. *)
Definition interrupted_world : world :=
  {| IS_RUNNING_IN_DOCKER := true;
     subprocess_call := λ i,
       if decide (i = 0) then Returned 1 "E302 expected 2 blank lines"
       else if decide (i = 2) then KeyboardInterrupt
       else Returned 0 "ok";
     coverage_xml_before := NoSuchFile;
     coverage_xml_after := NoSuchFile |}.

End Ultratest.

(** * The data-capture admin *)

Module Admin.

(** Modelled from the spec: the status of a submitted price list, the enum
    NEW, APPROVED, REJECTED, UNAPPROVED of [SubmittedPriceList], whose
    declaration ([data_capture/models.py]) is not among the sources. *)
Inductive status_t :=
  | STATUS_NEW
  | STATUS_APPROVED
  | STATUS_REJECTED
  | STATUS_UNAPPROVED.

#[global] Instance status_eq_dec : EqDecision status_t.
Proof. solve_decision. Defined.

Record User := {
  username : string;
  email : string;
  is_superuser : bool;
}.

Record request := { user : User }.

(** A row of the price-list table, without its primary key. *)
Record SubmittedPriceList := {
  contract_number : string;
  vendor_name : string;
  status : status_t;
  status_changed_by : option string;
}.

(** ** [CustomUserCreationForm.generate_username] *)

Section generate_username.

(** [django.utils.text.slugify] *)
Variable slugify : string → string.

(** The rows of the [User] table. *)
Variable users : list User.

(** [User.objects.filter(username=username).exists()] *)
Definition username_exists (u : string) : bool :=
  match filter (λ x, username x = u) users with
  | [] => false
  | _ => true
  end.

(** [email.split('@')[0]] *)
Fixpoint before_at (s : string) : string :=
  match s with
  | EmptyString => EmptyString
  | String c s' =>
      if decide (c = ascii_of_nat 64) then EmptyString else String c (before_at s')
  end.

Definition basename_of (email : string) : string :=
  substring 0 15 (slugify (before_at email)).

(** The [username] tried at pass [i] of the loop. *)
Definition candidate (basename : string) (i : nat) : string :=
  if decide (i = 0) then basename else basename +:+ str_of_nat i.

(** The loop [for i in range(max_attempts)], from pass [i] with [todo]
    passes left; [None] when the loop ends without returning. *)
Fixpoint first_free (basename : string) (i todo : nat) : option string :=
  match todo with
  | O => None
  | S todo' =>
      let username := candidate basename i in
      if negb (username_exists username) then Some username
      else first_free basename (S i) todo'
  end.

Definition generate_username (email : string) (max_attempts : nat) : exception + string :=
  let basename := basename_of email in
  match first_free basename 0 max_attempts with
  | Some username => mret username
  | None =>
      raise (Exception ("unable to generate username for " +:+ email +:+ " after "
                        +:+ str_of_nat max_attempts +:+ " attempts"))
  end.

(** The default of the keyword argument, used by [clean]. *)
Definition default_max_attempts : nat := 100.

(** [clean]: [cleaned_data] is the dictionary of the form; an absent or empty
    email is false in [if email]. *)
Definition clean (cleaned_data : gmap string string) : exception + gmap string string :=
  match cleaned_data !! "email" with
  | Some email =>
      if decide (email = EmptyString) then mret cleaned_data
      else
        username ← generate_username email default_max_attempts;
        mret (<["username" := username]> cleaned_data)
  | None => mret cleaned_data
  end.

End generate_username.

(** ** Read-only fields and permissions *)

(** In [get_readonly_fields], [obj] is [None] on the add form and a price list
    otherwise (a model instance is true in [if obj]); the test
    [obj.status is STATUS_APPROVED] compares small integers, for which
    identity is equality. For the inline, [obj] is the price list of the
    form the rows are shown in. *)

Module SubmittedPriceListRowInline.

Definition can_delete : bool := false.

Definition fields : list string :=
  [ "labor_category"; "education_level"; "min_years_experience"; "base_year_rate";
    "sin"; "is_muted" ].

Definition readonly_fields : list string := [].

Definition has_add_permission (req : request) : bool := false.

Definition get_readonly_fields (req : request) (obj : option SubmittedPriceList)
  : list string :=
  match obj with
  | Some o => if decide (status o = STATUS_APPROVED) then fields else readonly_fields
  | None => readonly_fields
  end.

End SubmittedPriceListRowInline.

Module UndeletableModelAdmin.

(** [get_actions]: [super_get_actions] is the method of the framework's
    [ModelAdmin], which returns a dictionary from action names to actions. *)
Definition get_actions {A} (super_get_actions : request → gmap string A) (req : request)
  : exception + gmap string A :=
  let actions := super_get_actions req in
  match actions !! "delete_selected" with
  | None => raise (KeyError "delete_selected")
  | Some _ => mret (delete "delete_selected" actions)
  end.

Definition has_delete_permission {O} (req : request) (obj : option O) : bool := false.

End UndeletableModelAdmin.

Module BaseSubmittedPriceListAdmin.

Definition fields : list string :=
  [ "contract_number"; "vendor_name"; "is_small_business"; "schedule_title";
    "contractor_site"; "contract_start"; "contract_end"; "submitter"; "created_at";
    "updated_at"; "current_status"; "status_changed_at"; "status_changed_by" ].

Definition readonly_fields : list string :=
  [ "schedule_title"; "created_at"; "updated_at"; "current_status"; "submitter";
    "status_changed_at"; "status_changed_by" ].

Definition has_add_permission (req : request) : bool := false.

Definition get_readonly_fields (req : request) (obj : option SubmittedPriceList)
  : list string :=
  match obj with
  | Some o => if decide (status o = STATUS_APPROVED) then fields else readonly_fields
  | None => readonly_fields
  end.

(** Inherited from [UndeletableModelAdmin]. *)
Definition get_actions {A} := @UndeletableModelAdmin.get_actions A.
Definition has_delete_permission :=
  @UndeletableModelAdmin.has_delete_permission SubmittedPriceList.

End BaseSubmittedPriceListAdmin.

Module SubmittedPriceListRowAdmin.

Definition has_add_permission (req : request) : bool := false.

(** Inherited from [UndeletableModelAdmin]. *)
Definition get_actions {A} := @UndeletableModelAdmin.get_actions A.
Definition has_delete_permission {Row} :=
  @UndeletableModelAdmin.has_delete_permission Row.

End SubmittedPriceListRowAdmin.

(** ** Bulk actions on price lists *)

(** The price-list table: primary key to row. *)
Abbreviation table := (gmap nat SubmittedPriceList).

(** A queryset is lazy: it is the condition its rows meet, and it is run
    against the table each time it is counted or iterated. *)
Definition QuerySet : Type := nat → SubmittedPriceList → bool.

(** [qs.filter(status=st)] and [qs.exclude(status=st)] *)
Definition filter_status (st : status_t) (qs : QuerySet) : QuerySet :=
  λ pk p, qs pk p && bool_decide (status p = st).
Definition exclude_status (st : status_t) (qs : QuerySet) : QuerySet :=
  λ pk p, qs pk p && negb (bool_decide (status p = st)).

(** The rows a queryset yields when it is iterated, and [qs.count()]. *)
Definition fetch (qs : QuerySet) (t : table) : list (nat * SubmittedPriceList) :=
  filter (λ r, qs r.1 r.2) (map_to_list t).
Definition count (qs : QuerySet) (t : table) : nat := length (fetch qs t).

(** The notifications of [data_capture/email.py], by the function called. *)
Inductive mail :=
  | price_list_approved (pk : nat) (price_list : SubmittedPriceList)
  | price_list_unapproved (pk : nat) (price_list : SubmittedPriceList)
  | price_list_rejected (pk : nat) (price_list : SubmittedPriceList).

(** What an action can change: the table, the mails sent, and the messages
    added to the request by [messages.add_message]. *)
Record site := {
  price_lists : table;
  outbox : list mail;
  flashes : list string;
}.

Definition add_message (msg : string) (s : site) : site :=
  {| price_lists := price_lists s; outbox := outbox s; flashes := flashes s ++ [msg] |}.

Section actions.

(** The methods [approve], [unapprove] and [reject] of [SubmittedPriceList]
    ([data_capture/models.py], not among the sources): what the row holds
    once the method has changed and saved it. *)
Variables model_approve model_unapprove model_reject :
  User → SubmittedPriceList → SubmittedPriceList.

(** The loop [for price_list in qs: price_list.method(request.user);
    email.notify(price_list)] over the rows fetched. *)
Definition for_each (method : User → SubmittedPriceList → SubmittedPriceList)
    (notify : nat → SubmittedPriceList → mail) (req : request)
    (rows : list (nat * SubmittedPriceList)) (s : site) : site :=
  foldl (λ s r,
      let price_list := method (user req) r.2 in
      {| price_lists := <[r.1 := price_list]> (price_lists s);
         outbox := outbox s ++ [notify r.1 price_list];
         flashes := flashes s |})
    s rows.

Definition approve (req : request) (queryset : QuerySet) (s : site) : site :=
  let unapproved := exclude_status STATUS_APPROVED queryset in
  let count := count unapproved (price_lists s) in
  let s := for_each model_approve price_list_approved req
             (fetch unapproved (price_lists s)) s in
  add_message
    (str_of_nat count +:+ " price list(s) have been approved and added to CALC.") s.

Definition unapprove (req : request) (queryset : QuerySet) (s : site) : site :=
  let approved := filter_status STATUS_APPROVED queryset in
  let count := count approved (price_lists s) in
  let s := for_each model_unapprove price_list_unapproved req
             (fetch approved (price_lists s)) s in
  add_message
    (str_of_nat count +:+ " price list(s) have been unapproved and removed from CALC.") s.

Definition reject (req : request) (queryset : QuerySet) (s : site) : site :=
  let new_pricelists := filter_status STATUS_NEW queryset in
  let count := count new_pricelists (price_lists s) in
  let s := for_each model_reject price_list_rejected req
             (fetch new_pricelists (price_lists s)) s in
  add_message (str_of_nat count +:+ " price list(s) have been rejected.") s.

End actions.

(** ** The registered price-list admins *)

Inductive action := Approve | Unapprove | Reject.

Module ApprovedPriceListAdmin.
Definition actions : list action := [Unapprove].
Definition get_queryset (qs : QuerySet) : QuerySet := filter_status STATUS_APPROVED qs.
Definition has_add_permission := BaseSubmittedPriceListAdmin.has_add_permission.
Definition has_delete_permission := BaseSubmittedPriceListAdmin.has_delete_permission.
Definition get_readonly_fields := BaseSubmittedPriceListAdmin.get_readonly_fields.
Definition get_actions {A} := @BaseSubmittedPriceListAdmin.get_actions A.
End ApprovedPriceListAdmin.

Module NewPriceListAdmin.
Definition actions : list action := [Approve; Reject].
Definition get_queryset (qs : QuerySet) : QuerySet := filter_status STATUS_NEW qs.
Definition has_add_permission := BaseSubmittedPriceListAdmin.has_add_permission.
Definition has_delete_permission := BaseSubmittedPriceListAdmin.has_delete_permission.
Definition get_readonly_fields := BaseSubmittedPriceListAdmin.get_readonly_fields.
Definition get_actions {A} := @BaseSubmittedPriceListAdmin.get_actions A.
End NewPriceListAdmin.

Module RejectedPriceListAdmin.
Definition actions : list action := [Approve].
Definition get_queryset (qs : QuerySet) : QuerySet := filter_status STATUS_REJECTED qs.
Definition has_add_permission := BaseSubmittedPriceListAdmin.has_add_permission.
Definition has_delete_permission := BaseSubmittedPriceListAdmin.has_delete_permission.
Definition get_readonly_fields := BaseSubmittedPriceListAdmin.get_readonly_fields.
Definition get_actions {A} := @BaseSubmittedPriceListAdmin.get_actions A.
End RejectedPriceListAdmin.

Module UnapprovedPriceListAdmin.
Definition actions : list action := [Approve].
Definition get_queryset (qs : QuerySet) : QuerySet := filter_status STATUS_UNAPPROVED qs.
Definition has_add_permission := BaseSubmittedPriceListAdmin.has_add_permission.
Definition has_delete_permission := BaseSubmittedPriceListAdmin.has_delete_permission.
Definition get_readonly_fields := BaseSubmittedPriceListAdmin.get_readonly_fields.
Definition get_actions {A} := @BaseSubmittedPriceListAdmin.get_actions A.
End UnapprovedPriceListAdmin.

(** ** [UniqueEmailFormMixin.clean_email] *)

Inductive validation_error := ValidationError (msg : string).

(** The [User] table with its primary keys. [instance] is [self.instance]:
    [None] when the form has none, [Some None] for an instance not saved yet
    (its [pk] is [None], and [exclude(pk=None)] excludes no row), [Some (Some
    pk)] for a saved one. *)
Definition clean_email (users : gmap nat User) (instance : option (option nat))
    (cleaned_email : string) : validation_error + string :=
  let qs : nat → User → bool := λ pk u, bool_decide (email u = cleaned_email) in
  let qs : nat → User → bool :=
    match instance with
    | Some (Some own) => λ pk u, qs pk u && negb (bool_decide (pk = own))
    | Some None => qs
    | None => qs
    end in
  if 0 <? length (filter (λ r, qs r.1 r.2) (map_to_list users))
  then inl (ValidationError "That email address is already in use.")
  else inr cleaned_email.

(** ** [CustomUserCreationForm.save] *)


(** ** [CustomUserAdmin] *)

Module CustomUserAdmin.

(** A fieldset: its title and its fields. *)
Definition add_fieldsets : list (option string * list string) :=
  [ (None, ["email"]) ].


(** [get_queryset]: [qs] is the queryset of the framework's [UserAdmin], as
    the condition its rows meet. *)
Definition get_queryset (qs : User → bool) (req : request) : User → bool :=
  if negb (is_superuser (user req))
  then λ u, qs u && bool_decide (is_superuser u = false)
  else qs.


End CustomUserAdmin.

(** ** [SubmittedPriceListRowAdmin.get_queryset] *)

(** A row of a price list: [price_list] is the key of the list it belongs
    to. *)
Record SubmittedPriceListRow := {
  price_list : nat;
  labor_category : string;
  is_muted : bool;
}.

(** [qs.exclude(price_list__status=STATUS_APPROVED)], the join being made
    against the price-list table [t]. *)
Definition rows_get_queryset (t : table) (qs : SubmittedPriceListRow → bool)
  : SubmittedPriceListRow → bool :=
  λ r, qs r && negb (bool_decide (status <$> t !! price_list r = Some STATUS_APPROVED)).

(** [SubmittedPriceListRowAdmin.vendor_name]: [obj.price_list.vendor_name];
    [None] stands for the [DoesNotExist] of a dangling key. *)
Definition rows_vendor_name (t : table) (obj : SubmittedPriceListRow) : option string :=
  vendor_name <$> t !! price_list obj.

(** ** Vocabulary of the properties and sample data *)

(** The base name as the claim about [generate_username] words it: the slug
    of the first 15 characters of the part before the at sign. *)
Definition basename_as_claimed (slugify : string → string) (email : string) : string :=
  slugify (substring 0 15 (before_at email)).

(** [django.utils.text.slugify] on ASCII text: characters other than letters,
    digits, underscores, white space and hyphens are dropped, the ends are
    stripped of white space, letters are lowered, and each run of hyphens and
    white space becomes one hyphen. *)
Definition is_word (c : ascii) : bool :=
  let n := nat_of_ascii c in
  ((48 <=? n) && (n <=? 57)) || ((65 <=? n) && (n <=? 90))
  || ((97 <=? n) && (n <=? 122)) || (n =? 95).
Definition is_space (c : ascii) : bool :=
  let n := nat_of_ascii c in
  (n =? 32) || ((9 <=? n) && (n <=? 13)) || ((28 <=? n) && (n <=? 31)).
Definition is_hyphen (c : ascii) : bool := nat_of_ascii c =? 45.
Definition lower (c : ascii) : ascii :=
  let n := nat_of_ascii c in
  if (65 <=? n) && (n <=? 90) then ascii_of_nat (n + 32) else c.

Fixpoint lstrip (l : list ascii) : list ascii :=
  match l with
  | c :: l' => if is_space c then lstrip l' else l
  | [] => []
  end.
Definition strip (l : list ascii) : list ascii := rev (lstrip (rev (lstrip l))).

Fixpoint hyphenate (in_run : bool) (l : list ascii) : list ascii :=
  match l with
  | [] => []
  | c :: l' =>
      if is_hyphen c || is_space c
      then (if in_run then [] else [ascii_of_nat 45]) ++ hyphenate true l'
      else c :: hyphenate false l'
  end.

Definition slugify_ascii (value : string) : string :=
  let kept :=
    List.filter (λ c, is_word c || is_space c || is_hyphen c) (list_ascii_of_string value) in
  string_of_list_ascii (hyphenate false (map lower (strip kept))).

Definition staff : User :=
  {| username := "staff"; email := "staff@example.com"; is_superuser := false |}.
Definition sample_request : request := {| user := staff |}.

Definition price_list_with (st : status_t) : SubmittedPriceList :=
  {| contract_number := "GS-00F-0001A"; vendor_name := "Vendor";
     status := st; status_changed_by := None |}.

(** Modelled from the spec: the transitions of a price list, NEW to APPROVED,
    REJECTED or UNAPPROVED; the model methods that make them
    ([data_capture/models.py]) are not among the sources. *)
Definition set_status (st : status_t) (u : User) (p : SubmittedPriceList)
  : SubmittedPriceList :=
  {| contract_number := contract_number p; vendor_name := vendor_name p;
     status := st; status_changed_by := Some (username u) |}.

Definition sample_site : site :=
  {| price_lists :=
       {[ 1 := price_list_with STATUS_NEW;
          2 := price_list_with STATUS_APPROVED;
          3 := price_list_with STATUS_REJECTED;
          4 := price_list_with STATUS_NEW ]};
     outbox := [];
     flashes := [] |}.

(** The queryset of everything selected in the change list. *)
Definition everything : QuerySet := λ _ _, true.

(** An action took [s] to [s']: every row that is [eligible] was changed by
    [method], every other row is as it was, no row appeared or went; one
    mail was sent for each changed row; and the message added to the request
    starts with the number of rows changed. *)
Definition transitions_only (eligible : nat → SubmittedPriceList → Prop)
    (method : SubmittedPriceList → SubmittedPriceList)
    (notify : nat → SubmittedPriceList → mail) (msg : string) (s s' : site) : Prop :=
  (∀ pk p, price_lists s !! pk = Some p → eligible pk p →
           price_lists s' !! pk = Some (method p))
  ∧ (∀ pk p, price_lists s !! pk = Some p → ¬ eligible pk p →
             price_lists s' !! pk = Some p)
  ∧ (∀ pk, price_lists s !! pk = None → price_lists s' !! pk = None)
  ∧ ∃ changed : list (nat * SubmittedPriceList),
      NoDup changed.*1
      ∧ (∀ pk p, (pk, p) ∈ changed ↔ price_lists s !! pk = Some p ∧ eligible pk p)
      ∧ outbox s' = outbox s ++ map (λ r, notify r.1 (method r.2)) changed
      ∧ flashes s' = flashes s ++ [str_of_nat (length changed) +:+ msg].

(** An action took [s] to [s'] without changing a row or sending a mail; the
    message it added counts no row. *)
Definition changes_nothing (msg : string) (s s' : site) : Prop :=
  price_lists s' = price_lists s
  ∧ outbox s' = outbox s
  ∧ flashes s' = flashes s ++ ["0" +:+ msg].

(** An action set of the framework: names to descriptions. *)
Definition framework_actions (req : request) : gmap string string :=
  {[ "delete_selected" := "Delete selected price lists";
     "approve" := "Approve selected price lists (add their data to CALC)" ]}.

(** The four registered change lists, and the queryset of each. *)
Inductive screen := Approved | New | Rejected | Unapproved.

Definition screen_queryset (sc : screen) : QuerySet → QuerySet :=
  match sc with
  | Approved => ApprovedPriceListAdmin.get_queryset
  | New => NewPriceListAdmin.get_queryset
  | Rejected => RejectedPriceListAdmin.get_queryset
  | Unapproved => UnapprovedPriceListAdmin.get_queryset
  end.

Definition screen_actions (sc : screen) : list action :=
  match sc with
  | Approved => ApprovedPriceListAdmin.actions
  | New => NewPriceListAdmin.actions
  | Rejected => RejectedPriceListAdmin.actions
  | Unapproved => UnapprovedPriceListAdmin.actions
  end.

(** A user table with primary keys, for [clean_email]. *)
Definition sample_users : gmap nat User :=
  {[ 1 := staff;
     2 := {| username := "root"; email := "root@example.com"; is_superuser := true |} ]}.


End Admin.

(** * Properties of the [ultratest] command *)

Module UltratestSpec.
Import Ultratest.

Lemma names_of_TESTTYPES w : map name (TESTTYPES w) = known_names.
Proof. reflexivity. Qed.

Lemma echo_level_0 verbosity msg nl fg : echo verbosity msg 0 nl fg = [secho msg nl fg].
Proof. unfold echo. by destruct verbosity. Qed.

Lemma calls_app tr1 tr2 : calls (tr1 ++ tr2) = calls tr1 ++ calls tr2.
Proof. unfold calls. apply flat_map_app. Qed.

Lemma calls_echo verbosity msg v_level nl fg : calls (echo verbosity msg v_level nl fg) = [].
Proof. unfold echo. by case_match. Qed.

Lemma calls_banner : calls (print_with_rainbow_colors ASCII_ART_LOGO) = [].
Proof. reflexivity. Qed.

(** ** [get_testtype] *)

Lemma get_testtype_known w n :
  n ∈ known_names → ∃ t, get_testtype w n = inr t ∧ name t = n ∧ t ∈ TESTTYPES w.
Proof.
  unfold known_names. rewrite !elem_of_cons, elem_of_nil.
  intros [->|[->|[->|[->|[->|[]]]]]];
    eexists; (split; [reflexivity|]); (split; [reflexivity|]);
    unfold TESTTYPES; set_solver.
Qed.

Lemma get_testtype_unknown w n :
  n ∉ known_names → get_testtype w n = inl (CommandError (not_a_valid_test_type w n)).
Proof.
  intros Hn. unfold get_testtype, TESTTYPES. cbn [lookup_testtype name].
  repeat (case_decide; [subst; exfalso; apply Hn; unfold known_names; set_solver|]).
  reflexivity.
Qed.

Lemma valid_choices w n :
  not_a_valid_test_type w n =
  dquote +:+ n +:+ dquote
  +:+ " is not a valid test type. Please choose from flake8, eslint, bandit, py.test, jest.".
Proof.
  unfold not_a_valid_test_type, get_testtype_names.
  do 3 apply (f_equal (String.append _)). reflexivity.
Qed.

Lemma comprehension_known w names :
  Forall (λ n, n ∈ known_names) names →
  ∃ to_run, comprehension (get_testtype w) names = inr to_run ∧ map name to_run = names.
Proof.
  induction 1 as [|n names Hn _ (to_run & Hc & Hnames)]; [by exists []|].
  destruct (get_testtype_known w n Hn) as (t & Ht & Hname & _).
  exists (t :: to_run). cbn. rewrite Ht. cbn. rewrite Hc. cbn.
  by rewrite Hname, Hnames.
Qed.

Lemma comprehension_unknown w names :
  Exists (λ n, n ∉ known_names) names →
  ∃ n, n ∈ names ∧ (n ∉ known_names) ∧
       comprehension (get_testtype w) names = inl (CommandError (not_a_valid_test_type w n)).
Proof.
  induction names as [|m names IH]; intros Hex; [by apply Exists_nil in Hex|].
  destruct (decide (m ∈ known_names)) as [Hm|Hm].
  - apply Exists_cons in Hex as [?|Hex]; [done|].
    destruct (IH Hex) as (n & Hin & Hn & Hc).
    destruct (get_testtype_known w m Hm) as (t & Ht & _).
    exists n. split; [by apply list_elem_of_further|]. split; [done|].
    cbn. rewrite Ht. cbn. by rewrite Hc.
  - exists m. split; [by apply list_elem_of_here|]. split; [done|].
    cbn. by rewrite (get_testtype_unknown w m Hm).
Qed.

Lemma choose_to_run_valid w names :
  Forall (λ n, n ∈ known_names) names →
  ∃ to_run, choose_to_run w names = inr to_run ∧ map name to_run = requested names.
Proof.
  intros Hall. destruct names as [|n names].
  - exists (TESTTYPES w). done.
  - apply (comprehension_known w) in Hall as (to_run & Hc & Hnames). by exists to_run.
Qed.

(** ** The loop *)

Lemma uninterrupted_from_0 w n : uninterrupted_from w 0 n ↔ uninterrupted w n.
Proof. done. Qed.

Lemma calls_run_entry w verbosity i entry s :
  calls (out (run_entry w verbosity i entry s).1) = calls (out s) ++ [cmd entry].
Proof.
  unfold run_entry. destruct (subprocess_call w i); cbn [fst out].
  - rewrite !calls_app, !calls_echo. cbn.
    destruct (1 <? verbosity); cbn;
      repeat case_match; rewrite ?calls_echo, ?app_nil_r; done.
  - by rewrite !calls_app, !calls_echo.
Qed.

Lemma failed_calls_cons w i entry rest :
  failed_calls w i (entry :: rest) =
  (if nonzero (subprocess_call w i) then [(i, entry)] else []) ++ failed_calls w (S i) rest.
Proof.
  unfold failed_calls. cbn [length seq zip]. rewrite filter_cons. cbn [fst].
  destruct (nonzero (subprocess_call w i)); by repeat case_decide.
Qed.

Lemma run_tests_uninterrupted w verbosity to_run : ∀ i s,
  uninterrupted_from w i (length to_run) →
  ∃ s', run_tests w verbosity i to_run s = (s', false)
    ∧ failures s' = failures s ++ failed_names w i to_run
    ∧ failure_outputs s' =
        failure_outputs s ++ (if 1 <? verbosity then [] else failed_outputs w i to_run)
    ∧ calls (out s') = calls (out s) ++ map cmd to_run
    ∧ ∃ tr, out s' = out s ++ tr.
Proof.
  induction to_run as [|entry rest IH]; intros i s Hun.
  - exists s. unfold failed_names, failed_outputs. cbn [run_tests failed_calls map length].
    rewrite !app_nil_r. repeat split; try done.
    + destruct (1 <? verbosity); by rewrite app_nil_r.
    + exists []. by rewrite app_nil_r.
  - assert (Hi : subprocess_call w i ≠ KeyboardInterrupt).
    { specialize (Hun 0). rewrite Nat.add_0_r in Hun. apply Hun. cbn. lia. }
    assert (Hrest : uninterrupted_from w (S i) (length rest)).
    { intros k Hk. replace (S i + k) with (i + S k) by lia. apply Hun. cbn. lia. }
    pose proof (calls_run_entry w verbosity i entry s) as Hcalls.
    cbn [run_tests]. unfold failed_names, failed_outputs. rewrite failed_calls_cons.
    unfold run_entry in *.
    destruct (subprocess_call w i) as [result output|] eqn:Hcall; [|done].
    cbn [nonzero output_of].
    match goal with |- context [run_tests _ _ _ _ ?s1] => set (s1' := s1) in * end.
    destruct (IH (S i) s1' Hrest) as (s' & Hrun & Hf & Hfo & Hc & tr & Htr).
    exists s'. rewrite Hrun. split; [done|].
    rewrite Hf, Hfo, Hc. cbn [fst] in Hcalls. rewrite Hcalls.
    subst s1'. cbn [failures failure_outputs out] in *.
    repeat split.
    + unfold failed_names. destruct (negb (result =? 0)%Z); cbn; by rewrite <- ?app_assoc.
    + unfold failed_outputs.
      destruct (negb (result =? 0)%Z), (1 <? verbosity); cbn;
        rewrite ?Hcall; cbn; by rewrite <- ?app_assoc.
    + by rewrite <- app_assoc.
    + rewrite Htr. rewrite <- !app_assoc. eauto.
Qed.

Lemma nonzero_true r :
  nonzero r = true ↔ ∃ result output, r = Returned result output ∧ result ≠ 0%Z.
Proof.
  destruct r as [result output|]; cbn.
  - rewrite negb_true_iff, Z.eqb_neq. split; [eauto|]. by intros (? & ? & [= -> ->] & ?).
  - split; [done|]. by intros (? & ? & ? & ?).
Qed.

Lemma run_tests_flags w verbosity to_run : ∀ i s,
  ((run_tests w verbosity i to_run s).2 = true ↔
     ∃ k, k < length to_run ∧ subprocess_call w (i + k) = KeyboardInterrupt)
  ∧ (failures (run_tests w verbosity i to_run s).1 ≠ [] ↔
       failures s ≠ [] ∨
       ∃ k, k < length to_run ∧ uninterrupted_from w i k
            ∧ nonzero (subprocess_call w (i + k)) = true).
Proof.
  induction to_run as [|entry rest IH]; intros i s.
  - cbn. split.
    + split; [done|]. intros (k & ? & _). lia.
    + split; [auto|]. intros [?|(k & ? & _)]; [done|lia].
  - cbn [run_tests length]. unfold run_entry.
    destruct (subprocess_call w i) as [result output|] eqn:Hcall.
    + match goal with |- context [run_tests _ _ _ _ ?s1] => set (s1' := s1) end.
      destruct (IH (S i) s1') as [IHb IHf]. split.
      * rewrite IHb. split.
        -- intros (k & Hk & Hki). exists (S k). split; [lia|].
           by replace (i + S k) with (S i + k) by lia.
        -- intros (k & Hk & Hki). destruct k as [|k].
           { rewrite Nat.add_0_r in Hki. congruence. }
           exists k. split; [lia|]. by replace (S i + k) with (i + S k) by lia.
      * rewrite IHf. subst s1'. cbn [failures]. split.
        -- intros [Hs|(k & Hk & Hun & Hnz)].
           ++ destruct (negb (result =? 0)%Z) eqn:Hr; [|by left].
              right. exists 0. split; [lia|]. split; [intros j ?; lia|].
              rewrite Nat.add_0_r, Hcall. exact Hr.
           ++ right. exists (S k). split; [lia|]. split.
              ** intros j Hj. destruct j as [|j].
                 { rewrite Nat.add_0_r. congruence. }
                 replace (i + S j) with (S i + j) by lia. apply Hun. lia.
              ** by replace (i + S k) with (S i + k) by lia.
        -- intros [Hs|(k & Hk & Hun & Hnz)].
           ++ left. destruct (negb (result =? 0)%Z); [|done].
              by destruct (failures s).
           ++ destruct k as [|k].
              ** rewrite Nat.add_0_r, Hcall in Hnz. cbn in Hnz. rewrite Hnz.
                 left. by destruct (failures s).
              ** right. exists k. split; [lia|]. split.
                 --- intros j Hj. replace (S i + j) with (i + S j) by lia. apply Hun. lia.
                 --- by replace (S i + k) with (i + S k) by lia.
    + cbn [fst snd failures]. split.
      * split; [|done]. intros _. exists 0. split; [lia|]. by rewrite Nat.add_0_r.
      * split; [auto|]. intros [?|(k & Hk & Hun & Hnz)]; [done|].
        destruct k as [|k].
        -- rewrite Nat.add_0_r, Hcall in Hnz. done.
        -- specialize (Hun 0). rewrite Nat.add_0_r in Hun. destruct Hun; [lia|done].
Qed.

Lemma report_coverage_iff to_run :
  existsb (λ t, bool_decide (name t ∈ TESTTYPES_TO_REPORT_COVERAGE_ON)) to_run = true
  ↔ "py.test" ∈ map name to_run.
Proof.
  rewrite existsb_exists. unfold TESTTYPES_TO_REPORT_COVERAGE_ON. split.
  - intros (t & Hin & Ht). apply bool_decide_eq_true in Ht.
    apply list_elem_of_singleton in Ht. rewrite <- Ht.
    apply (list_elem_of_fmap_2 name). by apply list_elem_of_In.
  - intros Hin. apply (list_elem_of_fmap_1 name) in Hin as (t & Ht & Hin).
    exists t. split; [by apply list_elem_of_In|].
    apply bool_decide_eq_true. rewrite <- Ht. by apply list_elem_of_here.
Qed.

(** ** Unknown names *)

(** C3. When some argument is not one of the five known test types, the
    command ends with an uncaught [CommandError] whose message names an
    unknown argument and lists the valid choices; by then it has printed the
    banner only, and has started no subprocess. *)
Theorem unknown_name_is_fatal w verbosity names :
  Exists (λ n, n ∉ known_names) names →
  ∃ n, n ∈ names ∧ (n ∉ known_names) ∧
    command w verbosity names =
      (print_with_rainbow_colors ASCII_ART_LOGO,
       Raised (CommandError
         (dquote +:+ n +:+ dquote +:+
          " is not a valid test type. Please choose from flake8, eslint, bandit, py.test, jest.")))
    ∧ calls (command w verbosity names).1 = [].
Proof.
  intros Hex. destruct (comprehension_unknown w names Hex) as (n & Hin & Hn & Hc).
  exists n. split; [done|]. split; [done|].
  assert (Hcmd : command w verbosity names =
            (print_with_rainbow_colors ASCII_ART_LOGO,
             Raised (CommandError (not_a_valid_test_type w n)))).
  { unfold command, choose_to_run. destruct names as [|m names].
    - by apply elem_of_nil in Hin.
    - by rewrite Hc. }
  rewrite Hcmd, valid_choices. split; [done|]. apply calls_banner.
Qed.

Lemma unknown_name_is_fatal_witness :
  Exists (λ n, n ∉ known_names) ["jest"; "pytest"] ∧
  ∃ n, n ∈ ["jest"; "pytest"] ∧ (n ∉ known_names) ∧
    command calm_world 1 ["jest"; "pytest"] =
      (print_with_rainbow_colors ASCII_ART_LOGO,
       Raised (CommandError
         (dquote +:+ n +:+ dquote +:+
          " is not a valid test type. Please choose from flake8, eslint, bandit, py.test, jest.")))
    ∧ calls (command calm_world 1 ["jest"; "pytest"]).1 = [].
Proof.
  assert (H : Exists (λ n, n ∉ known_names) ["jest"; "pytest"]).
  { apply Exists_cons_tl, Exists_cons_hd. apply (bool_decide_unpack _). exact I. }
  split; [exact H|]. exact (unknown_name_is_fatal calm_world 1 ["jest"; "pytest"] H).
Defined.

(** ** No argument *)

Lemma calls_run_tests_prefix w verbosity to_run : ∀ i s,
  ∃ m, calls (out (run_tests w verbosity i to_run s).1) =
       calls (out s) ++ take m (map cmd to_run).
Proof.
  induction to_run as [|entry rest IH]; intros i s.
  - exists 0. cbn. by rewrite app_nil_r.
  - cbn [run_tests]. pose proof (calls_run_entry w verbosity i entry s) as Hentry.
    destruct (run_entry w verbosity i entry s) as [s1 [|]]; cbn [fst] in *.
    + exists 1. by rewrite Hentry.
    + destruct (IH (S i) s1) as [m Hm]. exists (S m).
      rewrite Hm, Hentry. cbn. by rewrite <- app_assoc.
Qed.

(** ** The exit code *)

Lemma troubled_iff w n (s : run_state) (b : bool) :
  (b = true ↔ ∃ k, k < n ∧ subprocess_call w (0 + k) = KeyboardInterrupt) →
  (failures s ≠ [] ↔
     @nil string ≠ [] ∨
     ∃ k, k < n ∧ uninterrupted_from w 0 k ∧ nonzero (subprocess_call w (0 + k)) = true) →
  (interrupted w n ∨ ∃ k, k < n ∧ fails_at w k) ↔ (b = true ∨ failures s ≠ []).
Proof.
  intros Hb Hf. rewrite Hb, Hf. unfold interrupted, fails_at. cbn [Nat.add].
  setoid_rewrite nonzero_true. split.
  - intros [?|(k & ? & ? & ?)]; [by left|]. right. right. by exists k.
  - intros [?|[?|(k & ? & ? & ?)]]; [by left|done|]. right. by exists k.
Qed.

Lemma exit_code_cases (fs : list string) (b : bool) :
  let code := if 0 <? length fs then 1%Z else if b then 1%Z else 0%Z in
  ((b = true ∨ fs ≠ []) → code = 1%Z) ∧ (¬ (b = true ∨ fs ≠ []) → code = 0%Z).
Proof.
  destruct fs as [|f fs], b; cbn; split; try done; intros H.
  all: first [ by destruct H as [?|[]] | by destruct H; right | by destruct H; left ].
Qed.

(** C1, as amended. When every argument is a known test type and the coverage
    line, if the run reports coverage, can be formatted, the command ends by
    [sys.exit]: with 1 when Ctrl-C reached one of its calls or a call it made
    returned a non-zero result, with 0 otherwise. *)
Theorem exit_code_of_valid_run w verbosity names :
  Forall (λ n, n ∈ known_names) names →
  (covers names → is_Some (get_coverage (coverage_xml_after w))) →
  ∃ tr code, command w verbosity names = (tr, Exit code) ∧
    ((interrupted w (length (requested names))
      ∨ ∃ k, k < length (requested names) ∧ fails_at w k) → code = 1%Z) ∧
    (¬ (interrupted w (length (requested names))
        ∨ ∃ k, k < length (requested names) ∧ fails_at w k) → code = 0%Z).
Proof.
  intros Hall Hcov.
  destruct (choose_to_run_valid w names Hall) as (to_run & Hc & Hnames).
  assert (Hlen : length (requested names) = length to_run).
  { by rewrite <- Hnames, length_map. }
  unfold covers in Hcov. rewrite <- Hnames, <- report_coverage_iff in Hcov.
  rewrite Hlen. unfold command. rewrite Hc.
  destruct (run_tests_flags w verbosity to_run 0 (start w verbosity to_run)) as [Hb Hf].
  destruct (run_tests w verbosity 0 to_run (start w verbosity to_run)) as [s b].
  cbn [fst snd] in Hb, Hf.
  pose proof (troubled_iff w (length to_run) s b Hb Hf) as Htrouble.
  destruct (exit_code_cases (failures s) b) as [H1 H0].
  destruct (existsb _ to_run).
  - destruct (Hcov eq_refl) as [after Hafter]. rewrite Hafter.
    eexists _, _. split; [reflexivity|]. rewrite Htrouble. by split.
  - eexists _, _. split; [reflexivity|]. rewrite Htrouble. by split.
Qed.

Lemma exit_code_of_valid_run_witness :
  Forall (λ n, n ∈ known_names) ["flake8"; "py.test"] ∧
  (covers ["flake8"; "py.test"] →
   is_Some (get_coverage (coverage_xml_after second_fails_world))) ∧
  ∃ tr code, command second_fails_world 1 ["flake8"; "py.test"] = (tr, Exit code) ∧
    ((interrupted second_fails_world (length (requested ["flake8"; "py.test"]))
      ∨ ∃ k, k < length (requested ["flake8"; "py.test"]) ∧ fails_at second_fails_world k)
     → code = 1%Z) ∧
    (¬ (interrupted second_fails_world (length (requested ["flake8"; "py.test"]))
        ∨ ∃ k, k < length (requested ["flake8"; "py.test"]) ∧ fails_at second_fails_world k)
     → code = 0%Z).
Proof.
  assert (H1 : Forall (λ n, n ∈ known_names) ["flake8"; "py.test"]).
  { apply (bool_decide_unpack _). exact I. }
  assert (H2 : covers ["flake8"; "py.test"] →
               is_Some (get_coverage (coverage_xml_after second_fails_world))).
  { intros _. exists 0.75%float. reflexivity. }
  split; [exact H1|]. split; [exact H2|].
  exact (exit_code_of_valid_run second_fails_world 1 ["flake8"; "py.test"] H1 H2).
Defined.

(** C1, as stated, fails for an invocation with an unknown name: no call is
    interrupted, no subprocess returns a non-zero result (none is started),
    and the command does not end with exit code 0 but with [CommandError]. *)
Lemma exit_code_counterexample :
  ¬ interrupted calm_world 1
  ∧ ¬ (∃ k, k < 1 ∧ fails_at calm_world k)
  ∧ calls (command calm_world 1 ["pytest"]).1 = []
  ∧ (command calm_world 1 ["pytest"]).2 ≠ Exit 0
  ∧ (command calm_world 1 ["pytest"]).2 =
      Raised (CommandError
        (dquote +:+ "pytest" +:+ dquote +:+
         " is not a valid test type. Please choose from flake8, eslint, bandit, py.test, jest.")).
Proof.
  split; [by intros (k & _ & ?)|].
  split; [by intros (k & _ & _ & r & o & [= <- _] & ?)|].
  split; [reflexivity|]. split; [discriminate|reflexivity].
Qed.

(** ** Failures do not stop the run *)

Lemma zip_map {A B C} (f : A → B) (g : A → C) (l : list A) :
  zip (map f l) (map g l) = map (λ x, (f x, g x)) l.
Proof. induction l as [|x l IH]; cbn; [done|]. by rewrite IH. Qed.

Lemma calls_report_failure_outputs verbosity s :
  calls (report_failure_outputs verbosity s) = [].
Proof.
  unfold report_failure_outputs. destruct (failure_outputs s) as [|o os]; [done|].
  generalize (zip (failures s) (o :: os)). intros l.
  induction l as [|[failure output] l IH]; [done|].
  cbn [flat_map]. rewrite !calls_app, !calls_echo, IH. done.
Qed.

Lemma calls_report_coverage_lines verbosity before after :
  calls (report_coverage_lines verbosity before after) = [].
Proof.
  unfold report_coverage_lines. rewrite calls_app, calls_echo.
  destruct before as [b|]; [|done]. repeat case_match; by rewrite ?calls_echo.
Qed.

Lemma calls_start w verbosity to_run : calls (out (start w verbosity to_run)) = [].
Proof.
  unfold start, out. rewrite calls_app, calls_banner. case_decide; by rewrite calls_echo.
Qed.

Lemma run_from_start w verbosity to_run :
  uninterrupted_from w 0 (length to_run) →
  ∃ s, run_tests w verbosity 0 to_run (start w verbosity to_run) = (s, false)
    ∧ failures s = failed_names w 0 to_run
    ∧ failure_outputs s = (if 1 <? verbosity then [] else failed_outputs w 0 to_run)
    ∧ calls (out s) = map cmd to_run.
Proof.
  intros Hun.
  destruct (run_tests_uninterrupted w verbosity to_run 0 (start w verbosity to_run) Hun)
    as (s & Hrun & Hf & Hfo & Hcalls & _).
  exists s. split; [exact Hrun|]. rewrite Hf, Hfo, Hcalls, calls_start. by repeat split.
Qed.

Lemma failure_output_reported verbosity s failure output :
  (failure, output) ∈ zip (failures s) (failure_outputs s) →
  write output ∈ report_failure_outputs verbosity s.
Proof.
  unfold report_failure_outputs. intros Hin.
  destruct (failure_outputs s) as [|o os] eqn:Hos.
  { destruct (failures s); by apply elem_of_nil in Hin. }
  revert Hin. generalize (zip (failures s) (o :: os)). intros l Hin.
  induction l as [|[f' o'] l IH]; [by apply elem_of_nil in Hin|].
  cbn [flat_map]. apply elem_of_cons in Hin as [[= <- <-]|Hin].
  - rewrite !elem_of_app. left. right. right. left. by apply list_elem_of_here.
  - rewrite elem_of_app. right. by apply IH.
Qed.

Lemma calls_command w verbosity names to_run :
  choose_to_run w names = inr to_run →
  calls (command w verbosity names).1 =
  calls (out (run_tests w verbosity 0 to_run (start w verbosity to_run)).1).
Proof.
  intros Hc. unfold command. rewrite Hc.
  destruct (run_tests w verbosity 0 to_run (start w verbosity to_run)) as [s b].
  assert (Hreported : ∀ failing, calls failing = [] →
    calls (out s
           ++ (if b then echo verbosity (text "Aborting test run.") 0 true None else [])
           ++ report_failure_outputs verbosity s ++ failing) = calls (out s)).
  { intros failing Hfailing.
    rewrite !calls_app, calls_report_failure_outputs, Hfailing.
    destruct b; by rewrite ?calls_echo, !app_nil_r. }
  assert (Hfailing :
    calls (if 0 <? length (failures s)
           then echo verbosity (text ("Failing tests: " +:+ join ", " (failures s)))
                  0 true None
           else []) = []).
  { destruct (0 <? length (failures s)); [apply calls_echo|done]. }
  destruct (existsb _ to_run); [destruct (get_coverage (coverage_xml_after w))|];
    cbn [fst].
  - rewrite calls_app, calls_report_coverage_lines, app_nil_r. by apply Hreported.
  - by apply Hreported.
  - by apply Hreported.
Qed.

(** C2. When every argument is a known test type and no Ctrl-C reaches the
    command, every requested tool is started, in the order asked, whatever
    the results of the tools before it. When some results are non-zero, the
    final report names exactly the tools that returned them, in order, shows
    the captured output of each unless the run is verbose, and the command
    does not end with exit code 0: it ends by [sys.exit(1)], or with the
    uncaught [TypeError] of a coverage line that cannot be formatted. *)
Theorem failures_do_not_stop_the_run w verbosity names :
  Forall (λ n, n ∈ known_names) names →
  uninterrupted w (length (requested names)) →
  ∃ to_run tr res,
    choose_to_run w names = inr to_run
    ∧ map name to_run = requested names
    ∧ command w verbosity names = (tr, res)
    ∧ calls tr = map cmd to_run
    ∧ (failed_names w 0 to_run ≠ [] →
         secho (text ("Failing tests: " +:+ join ", " (failed_names w 0 to_run))) true None ∈ tr
         ∧ (verbosity ≤ 1 → ∀ p, p ∈ failed_calls w 0 to_run →
              write (output_of (subprocess_call w p.1)) ∈ tr)
         ∧ (res = Exit 1
            ∨ covers names ∧ get_coverage (coverage_xml_after w) = None
              ∧ res = Raised TypeError)).
Proof.
  intros Hall Hun.
  destruct (choose_to_run_valid w names Hall) as (to_run & Hc & Hnames).
  assert (Hlen : length (requested names) = length to_run).
  { by rewrite <- Hnames, length_map. }
  rewrite Hlen in Hun. apply uninterrupted_from_0 in Hun.
  exists to_run. unfold covers. rewrite <- Hnames.
  setoid_rewrite <- report_coverage_iff.
  unfold command. rewrite Hc.
  destruct (run_from_start w verbosity to_run Hun) as (s & Hrun & Hf & Hfo & Hcalls).
  rewrite Hrun.
  set (failing := if 0 <? length (failures s)
                  then echo verbosity (text ("Failing tests: " +:+ join ", " (failures s)))
                         0 true None
                  else []).
  assert (Hfailing : calls failing = []).
  { subst failing. destruct (0 <? length (failures s)); [apply calls_echo|done]. }
  assert (Hreported :
    calls (out s ++ [] ++ report_failure_outputs verbosity s ++ failing) = map cmd to_run).
  { rewrite !calls_app, Hcalls, calls_report_failure_outputs, Hfailing.
    cbn. by rewrite app_nil_r. }
  assert (Hmsg : failed_names w 0 to_run ≠ [] →
    secho (text ("Failing tests: " +:+ join ", " (failed_names w 0 to_run))) true None
      ∈ out s ++ [] ++ report_failure_outputs verbosity s ++ failing).
  { intros Hne. rewrite !elem_of_app. right. right. right.
    subst failing. rewrite Hf. destruct (failed_names w 0 to_run); [done|].
    cbn [length Nat.ltb Nat.leb]. rewrite echo_level_0. by apply list_elem_of_here. }
  assert (Hout : verbosity ≤ 1 → ∀ p, p ∈ failed_calls w 0 to_run →
    write (output_of (subprocess_call w p.1))
      ∈ out s ++ [] ++ report_failure_outputs verbosity s ++ failing).
  { intros Hv p Hp. rewrite !elem_of_app. right. right. left.
    apply (failure_output_reported _ _ (name p.2)).
    rewrite Hf, Hfo. replace (1 <? verbosity) with false
      by (symmetry; apply Nat.ltb_ge; lia).
    unfold failed_names, failed_outputs. rewrite zip_map.
    by apply (list_elem_of_fmap_2 (λ x, (name x.2, output_of (subprocess_call w x.1)))). }
  assert (Hcode : failed_names w 0 to_run ≠ [] →
    (if 0 <? length (failures s) then 1%Z else 0%Z) = 1%Z).
  { rewrite Hf. by destruct (failed_names w 0 to_run). }
  destruct (existsb _ to_run).
  - destruct (get_coverage (coverage_xml_after w)) as [after|].
    + eexists _, _. do 3 (split; [reflexivity|]). split.
      * by rewrite calls_app, calls_report_coverage_lines, app_nil_r.
      * intros Hne. split; [rewrite elem_of_app; left; by apply Hmsg|].
        split; [intros Hv p Hp; rewrite elem_of_app; left; by apply Hout|].
        left. by rewrite Hcode.
    + eexists _, _. do 3 (split; [reflexivity|]). split; [done|].
      intros Hne. split; [by apply Hmsg|]. split; [done|]. by right.
  - eexists _, _. do 3 (split; [reflexivity|]). split; [done|].
    intros Hne. split; [by apply Hmsg|]. split; [done|]. left. by rewrite Hcode.
Qed.

Lemma failures_do_not_stop_the_run_witness :
  Forall (λ n, n ∈ known_names) ["flake8"; "eslint"; "jest"] ∧
  uninterrupted second_fails_world (length (requested ["flake8"; "eslint"; "jest"])) ∧
  ∃ to_run tr res,
    choose_to_run second_fails_world ["flake8"; "eslint"; "jest"] = inr to_run
    ∧ map name to_run = requested ["flake8"; "eslint"; "jest"]
    ∧ command second_fails_world 1 ["flake8"; "eslint"; "jest"] = (tr, res)
    ∧ calls tr = map cmd to_run
    ∧ (failed_names second_fails_world 0 to_run ≠ [] →
         secho (text ("Failing tests: " +:+
                      join ", " (failed_names second_fails_world 0 to_run))) true None ∈ tr
         ∧ (1 ≤ 1 → ∀ p, p ∈ failed_calls second_fails_world 0 to_run →
              write (output_of (subprocess_call second_fails_world p.1)) ∈ tr)
         ∧ (res = Exit 1
            ∨ covers ["flake8"; "eslint"; "jest"]
              ∧ get_coverage (coverage_xml_after second_fails_world) = None
              ∧ res = Raised TypeError)).
Proof.
  assert (H1 : Forall (λ n, n ∈ known_names) ["flake8"; "eslint"; "jest"]).
  { apply (bool_decide_unpack _). exact I. }
  assert (H2 : uninterrupted second_fails_world
                 (length (requested ["flake8"; "eslint"; "jest"]))).
  { intros k _. cbn. destruct (decide (k = 1)); discriminate. }
  split; [exact H1|]. split; [exact H2|].
  exact (failures_do_not_stop_the_run second_fails_world 1 ["flake8"; "eslint"; "jest"] H1 H2).
Defined.

(** ** No argument *)

(** C6. Without arguments the list to run is [TESTTYPES]: flake8, eslint,
    bandit, py.test, jest. The commands the run starts are always the first
    ones of that list, in its order, and they are all five of them when no
    Ctrl-C reaches the command. *)
Theorem no_argument_runs_all_five w verbosity :
  choose_to_run w [] = inr (TESTTYPES w)
  ∧ map name (TESTTYPES w) = ["flake8"; "eslint"; "bandit"; "py.test"; "jest"]
  ∧ (∃ m, calls (command w verbosity []).1 = take m (map cmd (TESTTYPES w)))
  ∧ (uninterrupted w 5 → calls (command w verbosity []).1 = map cmd (TESTTYPES w)).
Proof.
  split; [reflexivity|]. split; [reflexivity|].
  rewrite (calls_command w verbosity [] (TESTTYPES w) eq_refl). split.
  - destruct (calls_run_tests_prefix w verbosity (TESTTYPES w) 0
                (start w verbosity (TESTTYPES w))) as [m Hm].
    exists m. by rewrite Hm, calls_start.
  - intros Hun.
    destruct (run_from_start w verbosity (TESTTYPES w) Hun) as (s & Hrun & _ & _ & Hcalls).
    by rewrite Hrun.
Qed.

Lemma no_argument_runs_all_five_witness :
  uninterrupted calm_world 5 ∧
  calls (command calm_world 1 []).1 =
    [ "flake8 --exclude=node_modules,migrations .";
      "npm run failable-eslint";
      "bandit -r .";
      "py.test --cov-report xml --cov-report term --cov";
      "npm test" ].
Proof.
  assert (H : uninterrupted calm_world 5).
  { intros k _. discriminate. }
  split; [exact H|].
  exact (proj2 (proj2 (proj2 (no_argument_runs_all_five calm_world 1))) H).
Defined.

(** ** The coverage report *)

(** Whatever goes wrong in the [try] of [get_coverage], the function returns
    [None]. *)
Lemma get_coverage_silent f e : read_branch_rate f = inl e → get_coverage f = None.
Proof. unfold get_coverage. by intros ->. Qed.

Lemma get_coverage_failures :
  get_coverage NoSuchFile = None
  ∧ get_coverage Malformed = None
  ∧ (∀ root, find ["packages"; "package"] root = None →
       get_coverage (Document root) = None)
  ∧ (∀ root package, find ["packages"; "package"] root = Some package →
       attrib package !! "branch-rate" = None → get_coverage (Document root) = None)
  ∧ (∀ root package s, find ["packages"; "package"] root = Some package →
       attrib package !! "branch-rate" = Some (NotNumeric s) →
       get_coverage (Document root) = None).
Proof.
  unfold get_coverage, read_branch_rate. repeat split; try done.
  - by intros root ->.
  - by intros root package -> ->.
  - by intros root package s -> ->.
Qed.

Lemma run_tests_ext w w' verbosity to_run : ∀ i s,
  (∀ k, subprocess_call w k = subprocess_call w' k) →
  run_tests w verbosity i to_run s = run_tests w' verbosity i to_run s.
Proof.
  induction to_run as [|entry rest IH]; intros i s Hext; [done|].
  cbn [run_tests]. unfold run_entry. rewrite <- Hext.
  destruct (subprocess_call w i); [|done]. by apply IH.
Qed.

(** A report that cannot be read when the command starts changes nothing but
    the lines about coverage: the command ends the same way as with any other
    report there. *)
Lemma before_read_does_not_change_outcome w verbosity names f :
  (command {| IS_RUNNING_IN_DOCKER := IS_RUNNING_IN_DOCKER w;
              subprocess_call := subprocess_call w;
              coverage_xml_before := f;
              coverage_xml_after := coverage_xml_after w |} verbosity names).2
  = (command w verbosity names).2.
Proof.
  set (w' := {| IS_RUNNING_IN_DOCKER := IS_RUNNING_IN_DOCKER w;
                subprocess_call := subprocess_call w;
                coverage_xml_before := f;
                coverage_xml_after := coverage_xml_after w |}).
  unfold command. change (choose_to_run w' names) with (choose_to_run w names).
  destruct (choose_to_run w names) as [e|to_run]; [done|].
  change (start w' verbosity to_run) with (start w verbosity to_run).
  rewrite (run_tests_ext w' w) by done.
  destruct (run_tests w verbosity 0 to_run (start w verbosity to_run)) as [s b].
  change (coverage_xml_after w') with (coverage_xml_after w).
  destruct (existsb _ to_run); [|done].
  by destruct (get_coverage (coverage_xml_after w)).
Qed.

(** A report that cannot be read once the tools have run makes the command
    raise [TypeError] where the coverage line is formatted. *)
Lemma after_read_failure_raises w verbosity names :
  Forall (λ n, n ∈ known_names) names →
  covers names →
  get_coverage (coverage_xml_after w) = None →
  (command w verbosity names).2 = Raised TypeError.
Proof.
  intros Hall Hcov Hafter.
  destruct (choose_to_run_valid w names Hall) as (to_run & Hc & Hnames).
  unfold covers in Hcov. rewrite <- Hnames, <- report_coverage_iff in Hcov.
  unfold command. rewrite Hc, Hcov, Hafter.
  by destruct (run_tests w verbosity 0 to_run (start w verbosity to_run)).
Qed.

(** C4, at the failing input. [ultratest py.test] where py.test passes and the
    report it leaves has an empty [packages] element: [get_coverage] returns
    [None] silently, but the command then ends with an uncaught [TypeError],
    while with a readable report and the same tools it ends by
    [sys.exit(0)]. *)
Theorem unreadable_report_changes_outcome :
  read_branch_rate (coverage_xml_after no_package_world) = inl NoPackage
  ∧ get_coverage (coverage_xml_after no_package_world) = None
  ∧ (∀ k, subprocess_call no_package_world k = subprocess_call calm_world k)
  ∧ (command calm_world 1 ["py.test"]).2 = Exit 0
  ∧ (command no_package_world 1 ["py.test"]).2 = Raised TypeError.
Proof. repeat split; vm_compute; reflexivity. Qed.

(** C5, as stated, fails at verbosity 0: the value read before the run is
    present (0.5, and 0.75 after), and the command prints the banner, starts
    py.test and prints nothing else. *)
Lemma coverage_delta_counterexample :
  get_coverage (coverage_xml_before calm_world) = Some 0.5%float
  ∧ get_coverage (coverage_xml_after calm_world) = Some 0.75%float
  ∧ command calm_world 0 ["py.test"] =
      (print_with_rainbow_colors ASCII_ART_LOGO
       ++ [call "py.test --cov-report xml --cov-report term --cov" true],
       Exit 0).
Proof. repeat split; vm_compute; reflexivity. Qed.

(** C5, as amended. When every argument is a known test type, py.test is to
    run, the branch rate is read both before and after the run, the one read
    before is not zero and the verbosity is at least 1, the output ends with
    the coverage line for the rate read after, followed by the difference
    [after - before]: in red when it is negative, in green with a plus sign
    when it is positive, and the words [(same as last run)] otherwise. *)
Theorem coverage_delta_is_reported w verbosity names before after :
  Forall (λ n, n ∈ known_names) names →
  covers names →
  get_coverage (coverage_xml_before w) = Some before →
  get_coverage (coverage_xml_after w) = Some after →
  PrimFloat.eqb before 0%float = false →
  1 ≤ verbosity →
  ∃ tr last code,
    command w verbosity names =
      (tr ++ [secho (coverage_is after) false None; last], Exit code)
    ∧ (PrimFloat.ltb (PrimFloat.sub after before) 0%float = true →
         last = secho (delta_down (PrimFloat.sub after before)) true (Some red))
    ∧ (PrimFloat.ltb (PrimFloat.sub after before) 0%float = false →
       PrimFloat.ltb 0%float (PrimFloat.sub after before) = true →
         last = secho (delta_up (PrimFloat.sub after before)) true (Some green))
    ∧ (PrimFloat.ltb (PrimFloat.sub after before) 0%float = false →
       PrimFloat.ltb 0%float (PrimFloat.sub after before) = false →
         last = secho (text " (same as last run)") true None).
Proof.
  intros Hall Hcov Hbefore Hafter Hnz Hv.
  destruct (choose_to_run_valid w names Hall) as (to_run & Hc & Hnames).
  unfold covers in Hcov. rewrite <- Hnames, <- report_coverage_iff in Hcov.
  unfold command. rewrite Hc, Hcov, Hbefore, Hafter.
  destruct (run_tests w verbosity 0 to_run (start w verbosity to_run)) as [s b].
  unfold report_coverage_lines, truthy, echo. rewrite Hnz.
  replace (verbosity <? 1) with false by (symmetry; apply Nat.ltb_ge; lia).
  cbn [negb].
  destruct (PrimFloat.ltb (PrimFloat.sub after before) 0%float);
    [|destruct (PrimFloat.ltb 0%float (PrimFloat.sub after before))];
    eexists _, _, _; (split; [reflexivity|]); by repeat split.
Qed.

Lemma coverage_delta_is_reported_witness :
  Forall (λ n, n ∈ known_names) ["py.test"]
  ∧ covers ["py.test"]
  ∧ get_coverage (coverage_xml_before calm_world) = Some 0.5%float
  ∧ get_coverage (coverage_xml_after calm_world) = Some 0.75%float
  ∧ PrimFloat.eqb 0.5%float 0%float = false
  ∧ 1 ≤ 1
  ∧ ∃ tr last code,
      command calm_world 1 ["py.test"] =
        (tr ++ [secho (coverage_is 0.75%float) false None; last], Exit code)
      ∧ (PrimFloat.ltb (PrimFloat.sub 0.75%float 0.5%float) 0%float = true →
           last = secho (delta_down (PrimFloat.sub 0.75%float 0.5%float)) true (Some red))
      ∧ (PrimFloat.ltb (PrimFloat.sub 0.75%float 0.5%float) 0%float = false →
         PrimFloat.ltb 0%float (PrimFloat.sub 0.75%float 0.5%float) = true →
           last = secho (delta_up (PrimFloat.sub 0.75%float 0.5%float)) true (Some green))
      ∧ (PrimFloat.ltb (PrimFloat.sub 0.75%float 0.5%float) 0%float = false →
         PrimFloat.ltb 0%float (PrimFloat.sub 0.75%float 0.5%float) = false →
           last = secho (text " (same as last run)") true None).
Proof.
  assert (H1 : Forall (λ n, n ∈ known_names) ["py.test"]).
  { apply (bool_decide_unpack _). exact I. }
  assert (H2 : covers ["py.test"]).
  { apply (bool_decide_unpack _). exact I. }
  assert (H3 : get_coverage (coverage_xml_before calm_world) = Some 0.5%float).
  { vm_compute. reflexivity. }
  assert (H4 : get_coverage (coverage_xml_after calm_world) = Some 0.75%float).
  { vm_compute. reflexivity. }
  assert (H5 : PrimFloat.eqb 0.5%float 0%float = false).
  { vm_compute. reflexivity. }
  assert (H6 : 1 ≤ 1) by exact (le_n 1).
  do 6 (split; [assumption|]).
  exact (coverage_delta_is_reported calm_world 1 ["py.test"] 0.5%float 0.75%float
           H1 H2 H3 H4 H5 H6).
Defined.

End UltratestSpec.

(** * Properties of the data-capture admin *)

Module AdminSpec.
Import Admin.

(** ** Read-only fields *)

(** C7. For a price list whose status is APPROVED, the change form and its
    row inline make every field they display read-only; for a price list of
    any other status, and for no price list at all, only the designated
    fields are read-only: seven of the form, none of the inline. *)
Theorem approved_price_list_is_read_only req (obj : SubmittedPriceList) :
  (status obj = STATUS_APPROVED →
     BaseSubmittedPriceListAdmin.get_readonly_fields req (Some obj)
       = BaseSubmittedPriceListAdmin.fields
     ∧ SubmittedPriceListRowInline.get_readonly_fields req (Some obj)
       = SubmittedPriceListRowInline.fields)
  ∧ (status obj ≠ STATUS_APPROVED →
       BaseSubmittedPriceListAdmin.get_readonly_fields req (Some obj)
         = [ "schedule_title"; "created_at"; "updated_at"; "current_status"; "submitter";
             "status_changed_at"; "status_changed_by" ]
       ∧ SubmittedPriceListRowInline.get_readonly_fields req (Some obj) = [])
  ∧ BaseSubmittedPriceListAdmin.get_readonly_fields req None
      = BaseSubmittedPriceListAdmin.readonly_fields
  ∧ SubmittedPriceListRowInline.get_readonly_fields req None = []
  ∧ ApprovedPriceListAdmin.get_readonly_fields req (Some obj)
      = BaseSubmittedPriceListAdmin.get_readonly_fields req (Some obj)
  ∧ NewPriceListAdmin.get_readonly_fields req (Some obj)
      = BaseSubmittedPriceListAdmin.get_readonly_fields req (Some obj)
  ∧ RejectedPriceListAdmin.get_readonly_fields req (Some obj)
      = BaseSubmittedPriceListAdmin.get_readonly_fields req (Some obj)
  ∧ UnapprovedPriceListAdmin.get_readonly_fields req (Some obj)
      = BaseSubmittedPriceListAdmin.get_readonly_fields req (Some obj).
Proof.
  unfold BaseSubmittedPriceListAdmin.get_readonly_fields,
    SubmittedPriceListRowInline.get_readonly_fields.
  split; [|split]; [| |by repeat split].
  - intros ->. by rewrite !decide_True.
  - intros Hst. by rewrite !decide_False.
Qed.

Lemma approved_price_list_is_read_only_witness :
  (status (price_list_with STATUS_APPROVED) = STATUS_APPROVED
   ∧ BaseSubmittedPriceListAdmin.get_readonly_fields sample_request
       (Some (price_list_with STATUS_APPROVED))
     = BaseSubmittedPriceListAdmin.fields
   ∧ SubmittedPriceListRowInline.get_readonly_fields sample_request
       (Some (price_list_with STATUS_APPROVED))
     = SubmittedPriceListRowInline.fields)
  ∧ (status (price_list_with STATUS_UNAPPROVED) ≠ STATUS_APPROVED
     ∧ BaseSubmittedPriceListAdmin.get_readonly_fields sample_request
         (Some (price_list_with STATUS_UNAPPROVED))
       = [ "schedule_title"; "created_at"; "updated_at"; "current_status"; "submitter";
           "status_changed_at"; "status_changed_by" ]
     ∧ SubmittedPriceListRowInline.get_readonly_fields sample_request
         (Some (price_list_with STATUS_UNAPPROVED)) = []).
Proof.
  split.
  - split; [reflexivity|].
    exact (proj1 (approved_price_list_is_read_only sample_request
                    (price_list_with STATUS_APPROVED)) eq_refl).
  - assert (H : status (price_list_with STATUS_UNAPPROVED) ≠ STATUS_APPROVED)
      by discriminate.
    split; [exact H|].
    exact (proj1 (proj2 (approved_price_list_is_read_only sample_request
                           (price_list_with STATUS_UNAPPROVED))) H).
Defined.

(** Every designated read-only field of the form is one of its fields. *)
Lemma readonly_fields_are_fields :
  BaseSubmittedPriceListAdmin.readonly_fields ⊆ BaseSubmittedPriceListAdmin.fields.
Proof. apply (bool_decide_unpack _). vm_compute. exact I. Qed.

(** ** No deletion, no addition *)

Lemma get_actions_spec {A} (super_get_actions : request → gmap string A) req :
  match UndeletableModelAdmin.get_actions super_get_actions req with
  | inr actions =>
      is_Some (super_get_actions req !! "delete_selected")
      ∧ actions = delete "delete_selected" (super_get_actions req)
  | inl e =>
      super_get_actions req !! "delete_selected" = None ∧ e = KeyError "delete_selected"
  end.
Proof.
  unfold UndeletableModelAdmin.get_actions.
  destruct (super_get_actions req !! "delete_selected") eqn:Hd; cbn; eauto.
Qed.

(** C10. On the price-list screens and on the price-list-row screen, for
    every request and object, [has_delete_permission] and
    [has_add_permission] return [False] (and the row inline allows neither);
    [get_actions] never returns an action set that offers [delete_selected]:
    when the framework's set offers it, the set returned is that set without
    it, every other action kept, and otherwise [del] raises [KeyError]. *)
Theorem neither_deletion_nor_addition {A Row}
    (super_get_actions : request → gmap string A) req
    (obj : option SubmittedPriceList) (row : option Row) :
  BaseSubmittedPriceListAdmin.has_delete_permission req obj = false
  ∧ BaseSubmittedPriceListAdmin.has_add_permission req = false
  ∧ ApprovedPriceListAdmin.has_delete_permission req obj = false
  ∧ ApprovedPriceListAdmin.has_add_permission req = false
  ∧ NewPriceListAdmin.has_delete_permission req obj = false
  ∧ NewPriceListAdmin.has_add_permission req = false
  ∧ RejectedPriceListAdmin.has_delete_permission req obj = false
  ∧ RejectedPriceListAdmin.has_add_permission req = false
  ∧ UnapprovedPriceListAdmin.has_delete_permission req obj = false
  ∧ UnapprovedPriceListAdmin.has_add_permission req = false
  ∧ SubmittedPriceListRowAdmin.has_delete_permission req row = false
  ∧ SubmittedPriceListRowAdmin.has_add_permission req = false
  ∧ SubmittedPriceListRowInline.has_add_permission req = false
  ∧ SubmittedPriceListRowInline.can_delete = false
  ∧ (∀ actions,
       BaseSubmittedPriceListAdmin.get_actions super_get_actions req = inr actions →
       actions !! "delete_selected" = None
       ∧ ∀ a, a ≠ "delete_selected" → actions !! a = super_get_actions req !! a)
  ∧ (is_Some (super_get_actions req !! "delete_selected") →
       BaseSubmittedPriceListAdmin.get_actions super_get_actions req
         = inr (delete "delete_selected" (super_get_actions req)))
  ∧ (super_get_actions req !! "delete_selected" = None →
       BaseSubmittedPriceListAdmin.get_actions super_get_actions req
         = inl (KeyError "delete_selected"))
  ∧ SubmittedPriceListRowAdmin.get_actions super_get_actions req
      = BaseSubmittedPriceListAdmin.get_actions super_get_actions req
  ∧ ApprovedPriceListAdmin.get_actions super_get_actions req
      = BaseSubmittedPriceListAdmin.get_actions super_get_actions req
  ∧ NewPriceListAdmin.get_actions super_get_actions req
      = BaseSubmittedPriceListAdmin.get_actions super_get_actions req
  ∧ RejectedPriceListAdmin.get_actions super_get_actions req
      = BaseSubmittedPriceListAdmin.get_actions super_get_actions req
  ∧ UnapprovedPriceListAdmin.get_actions super_get_actions req
      = BaseSubmittedPriceListAdmin.get_actions super_get_actions req.
Proof.
  do 14 (split; [reflexivity|]).
  unfold BaseSubmittedPriceListAdmin.get_actions.
  pose proof (get_actions_spec super_get_actions req) as Hspec.
  split; [|split; [|split; [|by repeat split]]].
  - intros actions Hget. rewrite Hget in Hspec. destruct Hspec as [_ ->].
    split; [apply lookup_delete_eq|]. intros a Ha. by apply lookup_delete_ne.
  - intros [a Ha]. unfold UndeletableModelAdmin.get_actions. by rewrite Ha.
  - intros Hnone. unfold UndeletableModelAdmin.get_actions. by rewrite Hnone.
Qed.

Lemma neither_deletion_nor_addition_witness :
  is_Some (framework_actions sample_request !! "delete_selected")
  ∧ BaseSubmittedPriceListAdmin.get_actions framework_actions sample_request
    = inr (delete "delete_selected" (framework_actions sample_request)).
Proof.
  assert (H : is_Some (framework_actions sample_request !! "delete_selected")).
  { exists "Delete selected price lists". reflexivity. }
  split; [exact H|].
  pose proof (neither_deletion_nor_addition (Row := unit) framework_actions sample_request
                None None) as Hthm.
  do 15 apply proj2 in Hthm. exact (proj1 Hthm H).
Defined.

(** ** Generated usernames *)

Example slugify_ascii_sample :
  slugify_ascii " Jane.Doe+CALC  test--x " = "janedoecalc-test-x".
Proof. vm_compute. reflexivity. Qed.

Example clean_sample :
  clean slugify_ascii [staff] {[ "email" := "Staff@example.com" ]}
  = inr {[ "email" := "Staff@example.com"; "username" := "staff1" ]}.
Proof. vm_compute. reflexivity. Qed.

Lemma username_exists_true users u :
  username_exists users u = true ↔ ∃ x, x ∈ users ∧ username x = u.
Proof.
  unfold username_exists.
  destruct (filter (λ x, username x = u) users) as [|y l] eqn:Hf; split.
  - done.
  - intros (x & Hin & Hx).
    assert (Hxf : x ∈ filter (λ x, username x = u) users)
      by (apply list_elem_of_filter; done).
    rewrite Hf in Hxf. by apply elem_of_nil in Hxf.
  - intros _. exists y.
    assert (Hy : y ∈ filter (λ x, username x = u) users)
      by (rewrite Hf; apply list_elem_of_here).
    apply list_elem_of_filter in Hy as [? ?]. done.
  - done.
Qed.

Lemma username_exists_false users u :
  username_exists users u = false ↔ ∀ x, x ∈ users → username x ≠ u.
Proof.
  rewrite <- not_true_iff_false, username_exists_true. split.
  - intros Hno x Hin Hx. apply Hno. by exists x.
  - intros Hall (x & Hin & Hx). by apply (Hall x).
Qed.

Lemma first_free_spec users basename : ∀ todo i,
  match first_free users basename i todo with
  | Some u =>
      ∃ k, i ≤ k < i + todo ∧ u = candidate basename k
           ∧ username_exists users u = false
           ∧ ∀ j, i ≤ j < k → username_exists users (candidate basename j) = true
  | None => ∀ j, i ≤ j < i + todo → username_exists users (candidate basename j) = true
  end.
Proof.
  induction todo as [|todo IH]; intros i; cbn [first_free].
  - intros j ?. lia.
  - destruct (username_exists users (candidate basename i)) eqn:Hi; cbn [negb].
    + specialize (IH (S i)). destruct (first_free users basename (S i) todo) as [u|].
      * destruct IH as (k & Hk & Hu & Hfree & Hbusy). exists k.
        split; [lia|]. split; [done|]. split; [done|].
        intros j Hj. destruct (decide (j = i)) as [->|]; [done|]. apply Hbusy. lia.
      * intros j Hj. destruct (decide (j = i)) as [->|]; [done|]. apply IH. lia.
    + exists i. split; [lia|]. split; [done|]. split; [done|]. intros j ?. lia.
Qed.

Lemma candidate_0 basename : candidate basename 0 = basename.
Proof. reflexivity. Qed.

Lemma candidate_pos basename i : 0 < i → candidate basename i = basename +:+ str_of_nat i.
Proof. intros Hi. unfold candidate. by rewrite decide_False by lia. Qed.

(** C8, as amended. For every email address, slug function and user table,
    [generate_username] with its default of 100 attempts either returns a
    name that no user has, which is the base name (the first 15 characters of
    the slug of the part of the address before the at sign) or that base name
    followed by a number from 1 to 99, every earlier candidate being taken;
    or, all 100 candidates being taken, it raises an exception. *)
Theorem generate_username_is_free (slugify : string → string) (users : list User)
    (address : string) :
  let basename := substring 0 15 (slugify (before_at address)) in
  match generate_username slugify users address default_max_attempts with
  | inr u =>
      (∀ x, x ∈ users → username x ≠ u)
      ∧ (u = basename ∨ ∃ i, 1 ≤ i ≤ 99 ∧ u = basename +:+ str_of_nat i)
      ∧ ∃ i, i < 100 ∧ u = candidate basename i
             ∧ ∀ j, j < i → ∃ x, x ∈ users ∧ username x = candidate basename j
  | inl e =>
      (∀ j, j < 100 → ∃ x, x ∈ users ∧ username x = candidate basename j)
      ∧ e = Exception ("unable to generate username for " +:+ address
                       +:+ " after 100 attempts")
  end.
Proof.
  intros basename. unfold generate_username, default_max_attempts.
  fold (basename_of slugify address). change (basename_of slugify address) with basename.
  pose proof (first_free_spec users basename 100 0) as Hspec.
  destruct (first_free users basename 0 100) as [u|]; cbn.
  - destruct Hspec as (k & Hk & Hu & Hfree & Hbusy).
    split; [by apply username_exists_false|]. split.
    + destruct k as [|k]; [left; by rewrite Hu|].
      right. exists (S k). split; [lia|]. rewrite Hu. apply candidate_pos. lia.
    + exists k. split; [lia|]. split; [done|].
      intros j Hj. apply username_exists_true, Hbusy. lia.
  - split; [|done]. intros j Hj. apply username_exists_true, Hspec. lia.
Qed.

(** C8, as stated, fails for the address [ab.cdefghijklmnopqrs@example.com]
    in an empty user table: the name returned is the first 15 characters of
    the slug of the part before the at sign, and it is none of the 100 names
    formed from the slug of the first 15 characters of that part. *)
Lemma generate_username_counterexample :
  generate_username slugify_ascii [] "ab.cdefghijklmnopqrs@example.com" default_max_attempts
    = inr "abcdefghijklmno"
  ∧ basename_as_claimed slugify_ascii "ab.cdefghijklmnopqrs@example.com" = "abcdefghijklmn"
  ∧ ∀ i, i < 100 →
      candidate (basename_as_claimed slugify_ascii "ab.cdefghijklmnopqrs@example.com") i
      ≠ "abcdefghijklmno".
Proof.
  split; [vm_compute; reflexivity|]. split; [vm_compute; reflexivity|].
  assert (H : Forall (λ i,
    candidate (basename_as_claimed slugify_ascii "ab.cdefghijklmnopqrs@example.com") i
    ≠ "abcdefghijklmno") (seq 0 100)).
  { apply (bool_decide_unpack _). vm_compute. exact I. }
  intros i Hi. rewrite Forall_forall in H. apply H. apply elem_of_seq. lia.
Qed.

(** ** Bulk actions *)

Lemma fetch_NoDup (qs : QuerySet) (t : table) : NoDup (fetch qs t).*1.
Proof.
  apply (sublist_NoDup _ (map_to_list t).*1); [apply NoDup_fst_map_to_list|].
  apply fmap_sublist. unfold fetch. apply sublist_filter.
Qed.

Lemma elem_of_fetch (qs : QuerySet) (t : table) pk p :
  (pk, p) ∈ fetch qs t ↔ t !! pk = Some p ∧ qs pk p = true.
Proof.
  unfold fetch. rewrite list_elem_of_filter, elem_of_map_to_list. cbn.
  rewrite Is_true_true. tauto.
Qed.

Lemma fetch_nil (qs : QuerySet) (t : table) :
  (∀ pk p, t !! pk = Some p → qs pk p = false) → fetch qs t = [].
Proof.
  intros Hno. destruct (fetch qs t) as [|[pk p] l] eqn:Hf; [done|].
  assert (Hin : (pk, p) ∈ fetch qs t) by (rewrite Hf; apply list_elem_of_here).
  apply elem_of_fetch in Hin as [Hpk Hqs]. rewrite (Hno pk p Hpk) in Hqs. done.
Qed.

Section for_each.
Variable method : User → SubmittedPriceList → SubmittedPriceList.
Variable notify : nat → SubmittedPriceList → mail.
Variable req : request.

Lemma for_each_table : ∀ (rows : list (nat * SubmittedPriceList)) s pk,
  NoDup rows.*1 →
  price_lists (for_each method notify req rows s) !! pk =
  match (list_to_map rows : table) !! pk with
  | Some p => Some (method (user req) p)
  | None => price_lists s !! pk
  end.
Proof.
  induction rows as [|[k p] rows IH]; intros s pk Hnd; [done|].
  apply NoDup_cons in Hnd as [Hk Hnd]. cbn [for_each foldl].
  unfold for_each in IH. rewrite IH by done. cbn [price_lists fst snd].
  rewrite list_to_map_cons. destruct (decide (pk = k)) as [->|Hne].
  - rewrite (not_elem_of_list_to_map_1 rows k Hk). by rewrite !lookup_insert_eq.
  - by rewrite !lookup_insert_ne.
Qed.

Lemma for_each_outbox : ∀ (rows : list (nat * SubmittedPriceList)) s,
  outbox (for_each method notify req rows s) =
  outbox s ++ map (λ r, notify r.1 (method (user req) r.2)) rows.
Proof.
  induction rows as [|r rows IH]; intros s; cbn [for_each foldl map].
  - by rewrite app_nil_r.
  - unfold for_each in IH. rewrite IH. cbn [outbox]. by rewrite <- app_assoc.
Qed.

Lemma for_each_flashes : ∀ (rows : list (nat * SubmittedPriceList)) s,
  flashes (for_each method notify req rows s) = flashes s.
Proof.
  induction rows as [|r rows IH]; intros s; cbn [for_each foldl]; [done|].
  unfold for_each in IH. by rewrite IH.
Qed.

(** The shape shared by the three actions: fetch the rows of a queryset,
    change and announce each, then add a message with their number. *)
Lemma action_transitions_only (qs : QuerySet) (msg : string) (s : site) :
  transitions_only (λ pk p, qs pk p = true) (method (user req)) notify msg s
    (add_message (str_of_nat (count qs (price_lists s)) +:+ msg)
       (for_each method notify req (fetch qs (price_lists s)) s)).
Proof.
  pose proof (fetch_NoDup qs (price_lists s)) as Hnd.
  assert (Hlookup : ∀ pk,
    (list_to_map (fetch qs (price_lists s)) : table) !! pk =
    match price_lists s !! pk with
    | Some p => if qs pk p then Some p else None
    | None => None
    end).
  { intros pk. destruct (price_lists s !! pk) as [p|] eqn:Hpk.
    - destruct (qs pk p) eqn:Hqs.
      + apply elem_of_list_to_map; [done|]. by apply elem_of_fetch.
      + apply not_elem_of_list_to_map_1. intros Hin.
        apply list_elem_of_fmap in Hin as ([k p'] & -> & Hin).
        apply elem_of_fetch in Hin as [Hp' Hqs']. cbn in *. congruence.
    - apply not_elem_of_list_to_map_1. intros Hin.
      apply list_elem_of_fmap in Hin as ([k p'] & -> & Hin).
      apply elem_of_fetch in Hin as [Hp' _]. cbn in *. congruence. }
  unfold transitions_only, add_message. cbn [price_lists outbox flashes].
  repeat split.
  - intros pk p Hpk Hqs. by rewrite for_each_table, Hlookup, Hpk, Hqs.
  - intros pk p Hpk Hqs. rewrite for_each_table, Hlookup, Hpk by done.
    by destruct (qs pk p).
  - intros pk Hpk. by rewrite for_each_table, Hlookup, Hpk.
  - exists (fetch qs (price_lists s)). split; [done|].
    split; [intros pk p; apply elem_of_fetch|].
    split; [apply for_each_outbox|]. by rewrite for_each_flashes.
Qed.

(** When no row of the table meets the queryset, the shared shape changes
    nothing. *)
Lemma action_changes_nothing (qs : QuerySet) (msg : string) (s : site) :
  (∀ pk p, price_lists s !! pk = Some p → qs pk p = false) →
  changes_nothing msg s
    (add_message (str_of_nat (count qs (price_lists s)) +:+ msg)
       (for_each method notify req (fetch qs (price_lists s)) s)).
Proof.
  intros Hno. unfold changes_nothing, count. rewrite (fetch_nil _ _ Hno). done.
Qed.

(** Once the shared shape has run, a row meets the queryset only if the
    method left it meeting the queryset. *)
Lemma after_action_none_meets (qs : QuerySet) (msg : string) (s : site) :
  (∀ pk p, qs pk p = true → qs pk (method (user req) p) = false) →
  ∀ pk p,
    price_lists (add_message (str_of_nat (count qs (price_lists s)) +:+ msg)
                   (for_each method notify req (fetch qs (price_lists s)) s)) !! pk
      = Some p →
    qs pk p = false.
Proof.
  intros Hleaves pk p'.
  destruct (action_transitions_only qs msg s) as (Hyes & Hno & Hnone & _).
  destruct (price_lists s !! pk) as [p|] eqn:Hpk.
  - destruct (qs pk p) eqn:Hqs.
    + rewrite (Hyes pk p Hpk Hqs). intros [= <-]. by apply Hleaves.
    + rewrite (Hno pk p Hpk) by (rewrite Hqs; done). by intros [= <-].
  - by rewrite (Hnone pk Hpk).
Qed.

End for_each.

Lemma transitions_only_iff (eligible eligible' : nat → SubmittedPriceList → Prop)
    method notify msg s s' :
  (∀ pk p, eligible pk p ↔ eligible' pk p) →
  transitions_only eligible method notify msg s s' →
  transitions_only eligible' method notify msg s s'.
Proof.
  intros Hiff (Hyes & Hno & Hnone & changed & Hnd & Hin & Hout & Hfl).
  split; [|split; [|split]].
  - intros pk p Hpk He. apply Hyes; [done|]. by apply Hiff.
  - intros pk p Hpk He. apply Hno; [done|]. by rewrite Hiff.
  - done.
  - exists changed. split; [done|]. split; [|done].
    intros pk p. rewrite Hin. split; intros [? ?]; (split; [done|]); by apply Hiff.
Qed.

Lemma exclude_status_true st (qs : QuerySet) pk p :
  exclude_status st qs pk p = true ↔ qs pk p = true ∧ status p ≠ st.
Proof.
  unfold exclude_status.
  rewrite andb_true_iff, negb_true_iff, bool_decide_eq_false. tauto.
Qed.

Lemma filter_status_true st (qs : QuerySet) pk p :
  filter_status st qs pk p = true ↔ qs pk p = true ∧ status p = st.
Proof.
  unfold filter_status. rewrite andb_true_iff, bool_decide_eq_true. tauto.
Qed.

(** C9. Whatever the model methods do to a row, [approve] changes exactly
    the selected price lists that are not APPROVED, [unapprove] exactly the
    selected ones that are APPROVED, and [reject] exactly the selected ones
    that are NEW; each sends one mail per price list changed, and the number
    in its message is the number of price lists changed. When the model
    methods leave a price list APPROVED, UNAPPROVED and REJECTED, applying an
    action again to the same selection changes no price list and sends no
    mail, and its message counts 0. *)
Theorem bulk_actions_transition_eligible_only
    (model_approve model_unapprove model_reject : User → SubmittedPriceList → SubmittedPriceList)
    (req : request) (queryset : QuerySet) (s : site) :
  (∀ u p, status (model_approve u p) = STATUS_APPROVED) →
  (∀ u p, status (model_unapprove u p) = STATUS_UNAPPROVED) →
  (∀ u p, status (model_reject u p) = STATUS_REJECTED) →
  transitions_only (λ pk p, queryset pk p = true ∧ status p ≠ STATUS_APPROVED)
    (model_approve (user req)) price_list_approved
    " price list(s) have been approved and added to CALC."
    s (approve model_approve req queryset s)
  ∧ transitions_only (λ pk p, queryset pk p = true ∧ status p = STATUS_APPROVED)
      (model_unapprove (user req)) price_list_unapproved
      " price list(s) have been unapproved and removed from CALC."
      s (unapprove model_unapprove req queryset s)
  ∧ transitions_only (λ pk p, queryset pk p = true ∧ status p = STATUS_NEW)
      (model_reject (user req)) price_list_rejected
      " price list(s) have been rejected."
      s (reject model_reject req queryset s)
  ∧ changes_nothing " price list(s) have been approved and added to CALC."
      (approve model_approve req queryset s)
      (approve model_approve req queryset (approve model_approve req queryset s))
  ∧ changes_nothing " price list(s) have been unapproved and removed from CALC."
      (unapprove model_unapprove req queryset s)
      (unapprove model_unapprove req queryset (unapprove model_unapprove req queryset s))
  ∧ changes_nothing " price list(s) have been rejected."
      (reject model_reject req queryset s)
      (reject model_reject req queryset (reject model_reject req queryset s)).
Proof.
  intros Happrove Hunapprove Hreject.
  split; [|split; [|split; [|split; [|split]]]].
  - eapply transitions_only_iff; [apply exclude_status_true|].
    apply (action_transitions_only model_approve price_list_approved req).
  - eapply transitions_only_iff; [apply filter_status_true|].
    apply (action_transitions_only model_unapprove price_list_unapproved req).
  - eapply transitions_only_iff; [apply filter_status_true|].
    apply (action_transitions_only model_reject price_list_rejected req).
  - apply (action_changes_nothing model_approve price_list_approved req).
    apply (after_action_none_meets model_approve price_list_approved req).
    intros pk p _. unfold exclude_status.
    rewrite Happrove, bool_decide_eq_true_2 by done. apply andb_false_r.
  - apply (action_changes_nothing model_unapprove price_list_unapproved req).
    apply (after_action_none_meets model_unapprove price_list_unapproved req).
    intros pk p _. unfold filter_status.
    rewrite Hunapprove, bool_decide_eq_false_2 by done. apply andb_false_r.
  - apply (action_changes_nothing model_reject price_list_rejected req).
    apply (after_action_none_meets model_reject price_list_rejected req).
    intros pk p _. unfold filter_status.
    rewrite Hreject, bool_decide_eq_false_2 by done. apply andb_false_r.
Qed.

Lemma bulk_actions_transition_eligible_only_witness :
  (∀ u p, status (set_status STATUS_APPROVED u p) = STATUS_APPROVED)
  ∧ (∀ u p, status (set_status STATUS_UNAPPROVED u p) = STATUS_UNAPPROVED)
  ∧ (∀ u p, status (set_status STATUS_REJECTED u p) = STATUS_REJECTED)
  ∧ transitions_only (λ pk p, everything pk p = true ∧ status p ≠ STATUS_APPROVED)
      (set_status STATUS_APPROVED (user sample_request)) price_list_approved
      " price list(s) have been approved and added to CALC."
      sample_site (approve (set_status STATUS_APPROVED) sample_request everything sample_site)
  ∧ changes_nothing " price list(s) have been approved and added to CALC."
      (approve (set_status STATUS_APPROVED) sample_request everything sample_site)
      (approve (set_status STATUS_APPROVED) sample_request everything
         (approve (set_status STATUS_APPROVED) sample_request everything sample_site)).
Proof.
  assert (H1 : ∀ u p, status (set_status STATUS_APPROVED u p) = STATUS_APPROVED)
    by reflexivity.
  assert (H2 : ∀ u p, status (set_status STATUS_UNAPPROVED u p) = STATUS_UNAPPROVED)
    by reflexivity.
  assert (H3 : ∀ u p, status (set_status STATUS_REJECTED u p) = STATUS_REJECTED)
    by reflexivity.
  do 3 (split; [assumption|]).
  pose proof (bulk_actions_transition_eligible_only
                (set_status STATUS_APPROVED) (set_status STATUS_UNAPPROVED)
                (set_status STATUS_REJECTED) sample_request everything sample_site
                H1 H2 H3) as Hthm.
  split; [exact (proj1 Hthm)|]. exact (proj1 (proj2 (proj2 (proj2 Hthm)))).
Defined.

(** The sample site, approved once: the two NEW lists and the REJECTED one
    are approved, three mails are sent and the message counts 3. *)
Example approve_sample :
  let s' := approve (set_status STATUS_APPROVED) sample_request everything sample_site in
  status <$> price_lists s' = {[ 1 := STATUS_APPROVED; 2 := STATUS_APPROVED;
                                 3 := STATUS_APPROVED; 4 := STATUS_APPROVED ]}
  ∧ status_changed_by <$> price_lists s' =
      {[ 1 := Some "staff"; 2 := None; 3 := Some "staff"; 4 := Some "staff" ]}
  ∧ length (outbox s') = 3
  ∧ flashes s' = ["3 price list(s) have been approved and added to CALC."].
Proof. repeat split; vm_compute; reflexivity. Qed.

End AdminSpec.

(** * Further properties of the [ultratest] command *)

Module UltratestExtra.
Import Ultratest.
Import UltratestSpec.

(** ** Looking up a test type *)

Lemma get_testtype_name w n t : get_testtype w n = inr t → name t = n ∧ t ∈ TESTTYPES w.
Proof.
  intros Hget. destruct (decide (n ∈ known_names)) as [Hn|Hn].
  - destruct (get_testtype_known w n Hn) as (t' & Ht' & Hname & Hin).
    rewrite Ht' in Hget. by injection Hget as <-.
  - by rewrite (get_testtype_unknown w n Hn) in Hget.
Qed.

(** X1. [get_testtype] finds every entry of [TESTTYPES] by its name, and
    whatever it returns is the entry of [TESTTYPES] with the name asked. *)
Theorem get_testtype_round_trip w n t :
  (t ∈ TESTTYPES w → get_testtype w (name t) = inr t)
  ∧ (get_testtype w n = inr t → t ∈ TESTTYPES w ∧ name t = n).
Proof.
  split.
  - unfold TESTTYPES. rewrite !elem_of_cons, elem_of_nil.
    intros [->|[->|[->|[->|[->|[]]]]]]; reflexivity.
  - intros Hget. by destruct (get_testtype_name w n t Hget).
Qed.

Lemma get_testtype_round_trip_witness :
  {| name := "eslint"; cmd := ESLINT_CMD interrupted_world |} ∈ TESTTYPES interrupted_world
  ∧ get_testtype interrupted_world "eslint"
    = inr {| name := "eslint"; cmd := ESLINT_CMD interrupted_world |}.
Proof.
  assert (H : {| name := "eslint"; cmd := ESLINT_CMD interrupted_world |}
              ∈ TESTTYPES interrupted_world).
  { apply list_elem_of_further, list_elem_of_here. }
  split; [exact H|].
  exact (proj1 (get_testtype_round_trip interrupted_world "eslint"
                  {| name := "eslint"; cmd := ESLINT_CMD interrupted_world |}) H).
Defined.

Lemma comprehension_names w names to_run :
  comprehension (get_testtype w) names = inr to_run →
  map name to_run = names ∧ Forall (λ t, t ∈ TESTTYPES w) to_run.
Proof.
  revert to_run. induction names as [|n names IH]; intros to_run; cbn.
  - by intros [= <-].
  - destruct (get_testtype w n) as [e|t] eqn:Ht; cbn; [done|].
    destruct (comprehension (get_testtype w) names) as [e|ts]; cbn; [done|].
    intros [= <-]. destruct (IH ts eq_refl) as [Hnames Hall].
    destruct (get_testtype_name w n t Ht) as [Hn Hin].
    cbn. rewrite Hn, Hnames. split; [done|]. by constructor.
Qed.

Lemma choose_to_run_names w names to_run :
  choose_to_run w names = inr to_run →
  map name to_run = requested names ∧ Forall (λ t, t ∈ TESTTYPES w) to_run.
Proof.
  destruct names as [|n names].
  - intros [= <-]. split; [done|]. by apply Forall_forall.
  - apply comprehension_names.
Qed.

(** An entry of [TESTTYPES] is determined by its name. *)
Lemma TESTTYPES_name_inj w t t' :
  t ∈ TESTTYPES w → t' ∈ TESTTYPES w → name t = name t' → t = t'.
Proof.
  unfold TESTTYPES. rewrite !elem_of_cons, !elem_of_nil.
  intros [->|[->|[->|[->|[->|[]]]]]] [->|[->|[->|[->|[->|[]]]]]]; by cbn.
Qed.

Lemma to_run_determined w (l l' : list testtype) :
  Forall (λ t, t ∈ TESTTYPES w) l → Forall (λ t, t ∈ TESTTYPES w) l' →
  map name l = map name l' → l = l'.
Proof.
  intros Hl. revert l'. induction Hl as [|t l Ht _ IH]; intros l' Hl' Hnames.
  - by destruct l'.
  - destruct Hl' as [|t' l' Ht' Hl']; [done|]. cbn in Hnames.
    injection Hnames as Hname Hnames.
    by rewrite (TESTTYPES_name_inj w t t' Ht Ht' Hname), (IH l' Hl' Hnames).
Qed.

(** ** The start of the output *)

Lemma run_tests_extends w verbosity to_run : ∀ i s,
  ∃ tr, out (run_tests w verbosity i to_run s).1 = out s ++ tr.
Proof.
  induction to_run as [|entry rest IH]; intros i s.
  - exists []. cbn. by rewrite app_nil_r.
  - cbn [run_tests]. unfold run_entry.
    destruct (subprocess_call w i) as [result output|].
    + match goal with |- context [run_tests _ _ _ _ ?s1] => destruct (IH (S i) s1) as [tr Htr] end.
      rewrite Htr. cbn [out]. rewrite <- !app_assoc. eexists; reflexivity.
    + cbn [fst out]. eexists; reflexivity.
Qed.

(** X2. Whatever the arguments and the verbosity, the output of the command
    starts with the banner: the six lines of the logo, each in its colour,
    and the colour reset. When every argument is a known test type and the
    verbosity is at least 1, what follows is the announcement: [Running ALL
    THE TESTS] when the names asked for are the five known names in their
    order (as they are without arguments), and [Running] with the names
    asked, separated by commas, otherwise. *)
Theorem output_starts_with_banner w verbosity names :
  length (print_with_rainbow_colors ASCII_ART_LOGO) = 7
  ∧ (∃ tr, (command w verbosity names).1 = print_with_rainbow_colors ASCII_ART_LOGO ++ tr)
  ∧ (Forall (λ n, n ∈ known_names) names → 1 ≤ verbosity →
     ∃ tr, (command w verbosity names).1 =
       print_with_rainbow_colors ASCII_ART_LOGO
       ++ secho (text (if decide (requested names = known_names)
                       then "Running ALL THE TESTS"
                       else "Running " +:+ join ", " names)) true None
       :: tr).
Proof.
  split; [reflexivity|].
  assert (Hshape : ∀ to_run, choose_to_run w names = inr to_run →
    ∃ tr, (command w verbosity names).1 = out (start w verbosity to_run) ++ tr).
  { intros to_run Hc. unfold command. rewrite Hc.
    destruct (run_tests_extends w verbosity to_run 0 (start w verbosity to_run)) as [tr Htr].
    destruct (run_tests w verbosity 0 to_run (start w verbosity to_run)) as [s b].
    cbn [fst] in Htr.
    destruct (existsb _ to_run); [destruct (get_coverage (coverage_xml_after w))|];
      cbn [fst]; rewrite Htr, <- ?app_assoc; eexists; reflexivity. }
  split.
  - destruct (choose_to_run w names) as [e|to_run] eqn:Hc.
    + exists []. unfold command. rewrite Hc. cbn [fst]. by rewrite app_nil_r.
    + destruct (Hshape to_run eq_refl) as [tr Htr]. rewrite Htr.
      unfold start, out. rewrite <- app_assoc. eexists; reflexivity.
  - intros Hall Hv.
    destruct (choose_to_run_valid w names Hall) as (to_run & Hc & Hnames).
    destruct (choose_to_run_names w names to_run Hc) as [_ Hin].
    destruct (Hshape to_run Hc) as [tr Htr]. rewrite Htr.
    unfold start, out, echo.
    replace (verbosity <? 1) with false by (symmetry; apply Nat.ltb_ge; lia).
    exists tr. rewrite <- app_assoc. f_equal.
    destruct (decide (to_run = TESTTYPES w)) as [->|Hne].
    + rewrite decide_True; [done|]. by rewrite <- Hnames.
    + rewrite decide_False.
      * destruct names as [|n names].
        -- exfalso. apply Hne. symmetry. by injection Hc.
        -- unfold get_testtype_names. destruct to_run as [|t to_run]; [discriminate Hnames|].
           by rewrite Hnames.
      * intros Heq. apply Hne. apply (to_run_determined w); [done| |by rewrite Hnames].
        by apply Forall_forall.
Qed.

Lemma output_starts_with_banner_witness :
  Forall (λ n, n ∈ known_names) ["jest"; "jest"] ∧ 1 ≤ 1 ∧
  ∃ tr, (command calm_world 1 ["jest"; "jest"]).1 =
    print_with_rainbow_colors ASCII_ART_LOGO
    ++ secho (text (if decide (requested ["jest"; "jest"] = known_names)
                    then "Running ALL THE TESTS"
                    else "Running " +:+ join ", " ["jest"; "jest"])) true None
    :: tr.
Proof.
  assert (H1 : Forall (λ n, n ∈ known_names) ["jest"; "jest"]).
  { apply (bool_decide_unpack _). exact I. }
  split; [exact H1|]. split; [exact (le_n 1)|].
  exact (proj2 (proj2 (output_starts_with_banner calm_world 1 ["jest"; "jest"])) H1 (le_n 1)).
Defined.

(** ** The banner printer *)





(** ** Ctrl-C *)

Lemma run_tests_app w verbosity l1 l2 : ∀ i s,
  run_tests w verbosity i (l1 ++ l2) s =
  match run_tests w verbosity i l1 s with
  | (s1, true) => (s1, true)
  | (s1, false) => run_tests w verbosity (i + length l1) l2 s1
  end.
Proof.
  induction l1 as [|entry l1 IH]; intros i s; cbn [run_tests app length].
  - by rewrite Nat.add_0_r.
  - destruct (run_entry w verbosity i entry s) as [s1 [|]]; [done|].
    rewrite IH. by replace (S i + length l1) with (i + S (length l1)) by lia.
Qed.

Lemma run_tests_interrupted_split w verbosity l1 entry l2 s :
  uninterrupted_from w 0 (length l1) →
  subprocess_call w (length l1) = KeyboardInterrupt →
  ∃ s', run_tests w verbosity 0 (l1 ++ entry :: l2) s = (s', true)
    ∧ failures s' = failures s ++ failed_names w 0 l1
    ∧ calls (out s') = calls (out s) ++ map cmd l1 ++ [cmd entry].
Proof.
  intros Hun Hki. rewrite run_tests_app.
  destruct (run_tests_uninterrupted w verbosity l1 0 s Hun)
    as (s1 & Hrun & Hf & _ & Hcalls & _).
  rewrite Hrun. cbn [Nat.add run_tests].
  pose proof (calls_run_entry w verbosity (length l1) entry s1) as Hentry.
  unfold run_entry in *. rewrite Hki in *. cbn [fst] in Hentry.
  eexists. split; [reflexivity|]. cbn [failures]. split; [done|].
  by rewrite Hentry, Hcalls, <- app_assoc.
Qed.

Lemma run_tests_interrupted_at w verbosity to_run k s :
  k < length to_run →
  uninterrupted_from w 0 k →
  subprocess_call w k = KeyboardInterrupt →
  ∃ s', run_tests w verbosity 0 to_run s = (s', true)
    ∧ failures s' = failures s ++ failed_names w 0 (take k to_run)
    ∧ calls (out s') = calls (out s) ++ take (S k) (map cmd to_run).
Proof.
  intros Hk Hun Hki.
  destruct (lookup_lt_is_Some_2 to_run k Hk) as [entry Hentry].
  assert (Hlen : length (take k to_run) = k) by (rewrite length_take; lia).
  assert (Hsplit : take k to_run ++ entry :: drop (S k) to_run = to_run).
  { rewrite <- (drop_S _ _ _ Hentry). apply take_drop. }
  rewrite <- Hlen in Hun, Hki.
  destruct (run_tests_interrupted_split w verbosity (take k to_run) entry
              (drop (S k) to_run) s Hun Hki) as (s' & Hrun & Hf & Hcalls).
  rewrite Hsplit in Hrun. exists s'. split; [done|]. split; [done|].
  rewrite Hcalls. f_equal.
  rewrite (take_S_r (map cmd to_run) k (cmd entry)).
  - by rewrite <- fmap_take.
  - change (map cmd to_run) with (cmd <$> to_run). by rewrite list_lookup_fmap, Hentry.
Qed.

(** X4. When every argument is a known test type and the first Ctrl-C
    arrives during the [k]-th call, the commands started are the first
    [k + 1] of the run and no other, [Aborting test run.] is echoed at every
    verbosity, the tools that had failed before are still named, and the
    command ends by [sys.exit(1)] or with the uncaught [TypeError] of the
    coverage line. *)
Theorem ctrl_c_aborts_the_rest w verbosity names k :
  Forall (λ n, n ∈ known_names) names →
  k < length (requested names) →
  uninterrupted w k →
  subprocess_call w k = KeyboardInterrupt →
  ∃ to_run tr res,
    choose_to_run w names = inr to_run
    ∧ command w verbosity names = (tr, res)
    ∧ calls tr = take (S k) (map cmd to_run)
    ∧ secho (text "Aborting test run.") true None ∈ tr
    ∧ (failed_names w 0 (take k to_run) ≠ [] →
         secho (text ("Failing tests: " +:+ join ", " (failed_names w 0 (take k to_run))))
           true None ∈ tr)
    ∧ (res = Exit 1 ∨ res = Raised TypeError).
Proof.
  intros Hall Hk Hun Hki.
  destruct (choose_to_run_valid w names Hall) as (to_run & Hc & Hnames).
  assert (Hlen : length (requested names) = length to_run).
  { by rewrite <- Hnames, length_map. }
  rewrite Hlen in Hk. apply uninterrupted_from_0 in Hun.
  destruct (run_tests_interrupted_at w verbosity to_run k (start w verbosity to_run)
              Hk Hun Hki) as (s & Hrun & Hf & Hcalls).
  rewrite calls_start in Hcalls. cbn [app] in Hcalls.
  change (failures (start w verbosity to_run)) with (@nil string) in Hf.
  cbn [app] in Hf.
  pose proof (calls_command w verbosity names to_run Hc) as Hcc.
  rewrite Hrun in Hcc. cbn [fst] in Hcc. rewrite Hcalls in Hcc.
  exists to_run. revert Hcc. unfold command. rewrite Hc, Hrun.
  rewrite echo_level_0.
  assert (Hmsg : failed_names w 0 (take k to_run) ≠ [] →
    (if 0 <? length (failures s)
     then echo verbosity (text ("Failing tests: " +:+ join ", " (failures s))) 0 true None
     else []) =
    [secho (text ("Failing tests: " +:+ join ", " (failed_names w 0 (take k to_run))))
       true None]).
  { intros Hne. rewrite Hf. destruct (failed_names w 0 (take k to_run)); [done|].
    cbn [length Nat.ltb Nat.leb]. by rewrite echo_level_0. }
  assert (Hcode : (if 0 <? length (failures s) then 1%Z else 1%Z) = 1%Z)
    by (by destruct (0 <? length (failures s))).
  destruct (existsb _ to_run); [destruct (get_coverage (coverage_xml_after w))|];
    cbn [fst]; intros Hcc; eexists _, _;
    (split; [reflexivity|]); (split; [reflexivity|]); (split; [exact Hcc|]).
  - split; [|split; [|left; by rewrite Hcode]].
    + rewrite !elem_of_app. left. right. left. apply list_elem_of_here.
    + intros Hne. rewrite (Hmsg Hne), !elem_of_app. left. do 3 right.
      apply list_elem_of_here.
  - split; [|split; [|by right]].
    + rewrite !elem_of_app. right. left. apply list_elem_of_here.
    + intros Hne. rewrite (Hmsg Hne), !elem_of_app. do 3 right. apply list_elem_of_here.
  - split; [|split; [|left; by rewrite Hcode]].
    + rewrite !elem_of_app. right. left. apply list_elem_of_here.
    + intros Hne. rewrite (Hmsg Hne), !elem_of_app. do 3 right. apply list_elem_of_here.
Qed.

Lemma ctrl_c_aborts_the_rest_witness :
  Forall (λ n, n ∈ known_names) []
  ∧ 2 < length (requested [])
  ∧ uninterrupted interrupted_world 2
  ∧ subprocess_call interrupted_world 2 = KeyboardInterrupt
  ∧ ∃ to_run tr res,
      choose_to_run interrupted_world [] = inr to_run
      ∧ command interrupted_world 0 [] = (tr, res)
      ∧ calls tr = take 3 (map cmd to_run)
      ∧ secho (text "Aborting test run.") true None ∈ tr
      ∧ (failed_names interrupted_world 0 (take 2 to_run) ≠ [] →
           secho (text ("Failing tests: " +:+
                        join ", " (failed_names interrupted_world 0 (take 2 to_run))))
             true None ∈ tr)
      ∧ (res = Exit 1 ∨ res = Raised TypeError).
Proof.
  assert (H1 : Forall (λ n, n ∈ known_names) []) by constructor.
  assert (H2 : 2 < length (requested [])) by (cbn; lia).
  assert (H3 : uninterrupted interrupted_world 2).
  { intros k Hk. cbn. destruct (decide (k = 0)); [discriminate|].
    destruct (decide (k = 2)); [lia|discriminate]. }
  assert (H4 : subprocess_call interrupted_world 2 = KeyboardInterrupt) by reflexivity.
  do 4 (split; [assumption|]).
  exact (ctrl_c_aborts_the_rest interrupted_world 0 [] 2 H1 H2 H3 H4).
Defined.

(** ** Captured and streamed output *)

Lemma well_captured_banner verbosity ascii_art :
  Forall (well_captured verbosity) (print_with_rainbow_colors ascii_art).
Proof.
  unfold print_with_rainbow_colors. apply Forall_app. split; [|by repeat constructor].
  apply Forall_forall. intros e He.
  apply (list_elem_of_fmap_1 (λ '(color, line), print (color +:+ line))) in He
    as ([color line] & -> & _).
  done.
Qed.

Lemma well_captured_echo verbosity msg v_level nl fg :
  Forall (well_captured verbosity) (echo verbosity msg v_level nl fg).
Proof. unfold echo. destruct (verbosity <? v_level); by repeat constructor. Qed.

Lemma well_captured_run_tests w verbosity to_run : ∀ i s,
  Forall (well_captured verbosity) (out s) →
  (1 < verbosity → failure_outputs s = []) →
  Forall (well_captured verbosity) (out (run_tests w verbosity i to_run s).1)
  ∧ (1 < verbosity → failure_outputs (run_tests w verbosity i to_run s).1 = []).
Proof.
  induction to_run as [|entry rest IH]; intros i s Hout Hfo; [done|].
  cbn [run_tests]. unfold run_entry.
  assert (Hstarted : Forall (well_captured verbosity)
    (out s
     ++ echo verbosity (text ("-> " +:+ name entry +:+ " ")) 1 (1 <? verbosity) None
     ++ echo verbosity (text ("Running " +:+ dquote +:+ cmd entry +:+ dquote)) 2 true None
     ++ [call (cmd entry) (negb (1 <? verbosity))])).
  { rewrite !Forall_app.
    split; [done|]. split; [apply well_captured_echo|].
    split; [apply well_captured_echo|]. by apply Forall_singleton. }
  destruct (subprocess_call w i) as [result output|]; [|done].
  apply IH; cbn [out failure_outputs].
  - apply Forall_app. split; [exact Hstarted|]. apply Forall_app. split.
    + destruct (1 <? verbosity) eqn:Hv; [|done].
      apply Nat.ltb_lt in Hv. by apply Forall_singleton.
    + destruct (1 <? verbosity); [done|].
      destruct (negb (result =? 0)%Z); apply well_captured_echo.
  - intros Hv. rewrite (proj2 (Nat.ltb_lt 1 verbosity) Hv).
    rewrite andb_false_r. by apply Hfo.
Qed.

Lemma well_captured_report_failure_outputs verbosity s :
  (1 < verbosity → failure_outputs s = []) →
  Forall (well_captured verbosity) (report_failure_outputs verbosity s).
Proof.
  intros Hfo. unfold report_failure_outputs.
  destruct (failure_outputs s) as [|o os] eqn:Hos; [done|].
  assert (Hv : verbosity ≤ 1).
  { destruct (decide (1 < verbosity)) as [Hlt|]; [by specialize (Hfo Hlt)|lia]. }
  generalize (zip (failures s) (o :: os)). intros l.
  induction l as [|[failure output] l IH]; [done|].
  cbn [flat_map]. rewrite !Forall_app.
  split; [|exact IH].
  split; [apply well_captured_echo|]. split; [apply well_captured_echo|].
  split; [by apply Forall_singleton|apply well_captured_echo].
Qed.

Lemma well_captured_report_coverage_lines verbosity before after :
  Forall (well_captured verbosity) (report_coverage_lines verbosity before after).
Proof.
  unfold report_coverage_lines. apply Forall_app. split; [apply well_captured_echo|].
  destruct before as [b|]; [|done].
  repeat case_match; try done; apply well_captured_echo.
Qed.

(** X5. In every output of the command, whatever the arguments: a child is
    started with its output captured exactly when the verbosity is at most
    1; the output of a child streams to the terminal only at a verbosity
    above 1; and captured output is written back only at a verbosity of at
    most 1. *)
Theorem output_is_captured_unless_verbose w verbosity names :
  Forall (well_captured verbosity) (command w verbosity names).1.
Proof.
  unfold command. destruct (choose_to_run w names) as [e|to_run].
  { apply well_captured_banner. }
  assert (Hstart : Forall (well_captured verbosity) (out (start w verbosity to_run))).
  { unfold start, out. apply Forall_app. split; [apply well_captured_banner|].
    case_decide; apply well_captured_echo. }
  destruct (well_captured_run_tests w verbosity to_run 0 (start w verbosity to_run)
              Hstart (λ _, eq_refl)) as [Hout Hfo].
  destruct (run_tests w verbosity 0 to_run (start w verbosity to_run)) as [s b].
  cbn [fst] in Hout, Hfo.
  assert (Hreported : Forall (well_captured verbosity)
    (out s
     ++ (if b then echo verbosity (text "Aborting test run.") 0 true None else [])
     ++ report_failure_outputs verbosity s
     ++ (if 0 <? length (failures s)
         then echo verbosity (text ("Failing tests: " +:+ join ", " (failures s)))
                0 true None
         else []))).
  { rewrite !Forall_app. split; [done|]. split.
    - destruct b; [apply well_captured_echo|done].
    - split; [by apply well_captured_report_failure_outputs|].
      destruct (0 <? length (failures s)); [apply well_captured_echo|done]. }
  destruct (existsb _ to_run); [destruct (get_coverage (coverage_xml_after w))|];
    cbn [fst]; try done.
  apply Forall_app. split; [done|]. apply well_captured_report_coverage_lines.
Qed.

(** ** Runs without py.test *)

(** X6. When py.test is not among the test types asked for, the command
    does not depend on [coverage.xml]: with any other report before and after
    the run it prints the same and ends the same; and when every argument is
    a known test type it ends by [sys.exit]. *)
Theorem without_pytest_coverage_is_not_read w verbosity names before after :
  "py.test" ∉ requested names →
  command (with_coverage w before after) verbosity names = command w verbosity names
  ∧ (Forall (λ n, n ∈ known_names) names →
     ∃ tr code, command w verbosity names = (tr, Exit code)).
Proof.
  intros Hno.
  assert (Hoff : ∀ to_run, choose_to_run w names = inr to_run →
    existsb (λ t, bool_decide (name t ∈ TESTTYPES_TO_REPORT_COVERAGE_ON)) to_run = false).
  { intros to_run Hc. apply not_true_iff_false. rewrite report_coverage_iff.
    by rewrite (proj1 (choose_to_run_names w names to_run Hc)). }
  split.
  - unfold command.
    change (choose_to_run (with_coverage w before after) names)
      with (choose_to_run w names).
    destruct (choose_to_run w names) as [e|to_run] eqn:Hc; [done|].
    change (start (with_coverage w before after) verbosity to_run)
      with (start w verbosity to_run).
    rewrite (run_tests_ext (with_coverage w before after) w) by done.
    by rewrite (Hoff to_run eq_refl).
  - intros Hall. destruct (choose_to_run_valid w names Hall) as (to_run & Hc & _).
    unfold command. rewrite Hc, (Hoff to_run Hc).
    destruct (run_tests w verbosity 0 to_run (start w verbosity to_run)) as [s b].
    eexists _, _. reflexivity.
Qed.

Lemma without_pytest_coverage_is_not_read_witness :
  ("py.test" ∉ requested ["flake8"; "jest"])
  ∧ command (with_coverage calm_world NoSuchFile Malformed) 2 ["flake8"; "jest"]
    = command calm_world 2 ["flake8"; "jest"].
Proof.
  assert (H : "py.test" ∉ requested ["flake8"; "jest"]).
  { apply (bool_decide_unpack _). exact I. }
  split; [exact H|].
  exact (proj1 (without_pytest_coverage_is_not_read calm_world 2 ["flake8"; "jest"]
                  NoSuchFile Malformed H)).
Defined.

(** ** A first run, or a coverage of zero *)

(** X7. When every argument is a known test type, py.test is to run, the
    verbosity is at least 1 and the branch rate can be read after the run,
    but the one read before the run is absent or is zero, the output ends
    with the coverage line, with its line feed, and no difference is
    shown. *)
Theorem no_delta_without_a_before_value w verbosity names after :
  Forall (λ n, n ∈ known_names) names →
  covers names →
  get_coverage (coverage_xml_after w) = Some after →
  (get_coverage (coverage_xml_before w) = None
   ∨ ∃ before, get_coverage (coverage_xml_before w) = Some before
               ∧ PrimFloat.eqb before 0%float = true) →
  1 ≤ verbosity →
  ∃ tr code,
    command w verbosity names = (tr ++ [secho (coverage_is after) true None], Exit code).
Proof.
  intros Hall Hcov Hafter Hbefore Hv.
  destruct (choose_to_run_valid w names Hall) as (to_run & Hc & Hnames).
  unfold covers in Hcov. rewrite <- Hnames, <- report_coverage_iff in Hcov.
  unfold command. rewrite Hc, Hcov, Hafter.
  destruct (run_tests w verbosity 0 to_run (start w verbosity to_run)) as [s b].
  unfold report_coverage_lines, echo.
  replace (verbosity <? 1) with false by (symmetry; apply Nat.ltb_ge; lia).
  destruct Hbefore as [->|(before & -> & Hzero)]; cbn [truthy negb].
  - eexists _, _. by rewrite app_nil_r.
  - rewrite Hzero. cbn [negb]. eexists _, _. by rewrite app_nil_r.
Qed.

Lemma no_delta_without_a_before_value_witness :
  Forall (λ n, n ∈ known_names) ["py.test"]
  ∧ covers ["py.test"]
  ∧ get_coverage (coverage_xml_after (with_coverage calm_world (coverage_report 0) (coverage_report 0.75)))
    = Some 0.75%float
  ∧ (get_coverage (coverage_xml_before (with_coverage calm_world (coverage_report 0) (coverage_report 0.75)))
     = None
     ∨ ∃ before,
         get_coverage (coverage_xml_before (with_coverage calm_world (coverage_report 0) (coverage_report 0.75)))
         = Some before
         ∧ PrimFloat.eqb before 0%float = true)
  ∧ 1 ≤ 1
  ∧ ∃ tr code,
      command (with_coverage calm_world (coverage_report 0) (coverage_report 0.75)) 1 ["py.test"]
      = (tr ++ [secho (coverage_is 0.75%float) true None], Exit code).
Proof.
  assert (H1 : Forall (λ n, n ∈ known_names) ["py.test"]).
  { apply (bool_decide_unpack _). exact I. }
  assert (H2 : covers ["py.test"]).
  { apply (bool_decide_unpack _). exact I. }
  assert (H3 : get_coverage (coverage_xml_after
                 (with_coverage calm_world (coverage_report 0) (coverage_report 0.75)))
               = Some 0.75%float).
  { vm_compute. reflexivity. }
  assert (H4 : get_coverage (coverage_xml_before
                 (with_coverage calm_world (coverage_report 0) (coverage_report 0.75)))
               = None
               ∨ ∃ before,
                   get_coverage (coverage_xml_before
                     (with_coverage calm_world (coverage_report 0) (coverage_report 0.75)))
                   = Some before
                   ∧ PrimFloat.eqb before 0%float = true).
  { right. exists 0%float. split; vm_compute; reflexivity. }
  do 4 (split; [assumption|]). split; [exact (le_n 1)|].
  exact (no_delta_without_a_before_value
           (with_coverage calm_world (coverage_report 0) (coverage_report 0.75))
           1 ["py.test"] 0.75%float H1 H2 H3 H4 (le_n 1)).
Defined.

(** ** How the command can end *)

(** X8. The command ends in one of four ways and in no other: with the
    [CommandError] of an unknown argument; with the [TypeError] of the
    coverage line, which takes py.test among the test types and a branch
    rate that cannot be read after the run; by [sys.exit(0)]; or by
    [sys.exit(1)]. The result of a child is never the exit code. *)
Theorem command_ends_in_one_of_four_ways w verbosity names :
  (∃ n, n ∈ names ∧ (n ∉ known_names)
        ∧ (command w verbosity names).2 = Raised (CommandError (not_a_valid_test_type w n)))
  ∨ (covers names ∧ get_coverage (coverage_xml_after w) = None
     ∧ (command w verbosity names).2 = Raised TypeError)
  ∨ (command w verbosity names).2 = Exit 0
  ∨ (command w verbosity names).2 = Exit 1.
Proof.
  destruct (decide (Forall (λ n, n ∈ known_names) names)) as [Hall|Hnot].
  - right. destruct (choose_to_run_valid w names Hall) as (to_run & Hc & Hnames).
    unfold covers. rewrite <- Hnames, <- report_coverage_iff.
    unfold command. rewrite Hc.
    destruct (run_tests w verbosity 0 to_run (start w verbosity to_run)) as [s b].
    assert (Hcode : ∀ code,
      code = (if 0 <? length (failures s) then 1%Z else if b then 1%Z else 0%Z) →
      code = 0%Z ∨ code = 1%Z).
    { intros code ->. destruct (0 <? length (failures s)), b; auto. }
    destruct (existsb _ to_run).
    + destruct (get_coverage (coverage_xml_after w)).
      * right. cbn [snd]. destruct (Hcode _ eq_refl) as [->| ->]; auto.
      * by left.
    + right. cbn [snd]. destruct (Hcode _ eq_refl) as [->| ->]; auto.
  - left. apply not_Forall_Exists in Hnot; [|apply _].
    destruct (comprehension_unknown w names Hnot) as (n & Hin & Hn & Hc).
    exists n. split; [done|]. split; [done|].
    unfold command, choose_to_run. destruct names as [|m names].
    + by apply elem_of_nil in Hin.
    + by rewrite Hc.
Qed.

(** ** A quiet run *)

Lemma run_tests_quiet w to_run : ∀ i s,
  (∀ k, k < length to_run → ∃ output, subprocess_call w (i + k) = Returned 0 output) →
  run_tests w 0 i to_run s =
  ({| out := out s ++ map (λ t, call (cmd t) true) to_run;
      failures := failures s;
      failure_outputs := failure_outputs s |}, false).
Proof.
  induction to_run as [|entry rest IH]; intros i s Hpass.
  - cbn. rewrite app_nil_r. by destruct s.
  - destruct (Hpass 0) as [output Hcall]; [cbn; lia|]. rewrite Nat.add_0_r in Hcall.
    cbn [run_tests]. unfold run_entry. rewrite Hcall. cbn [Z.eqb negb andb].
    rewrite IH.
    + cbn [out failures failure_outputs map]. unfold echo. cbn [Nat.ltb Nat.leb].
      rewrite !app_nil_r. by rewrite <- app_assoc.
    + intros k Hk. replace (S i + k) with (i + S k) by lia. apply Hpass. cbn. lia.
Qed.

(** X9. At verbosity 0, when every argument is a known test type, no Ctrl-C
    arrives, every child returns 0 and the coverage line, if the run reports
    coverage, can be formatted, the command prints the banner and nothing
    else: it starts each tool asked for with its output captured, and ends
    by [sys.exit(0)]. *)
Theorem quiet_run_prints_the_banner_only w names :
  Forall (λ n, n ∈ known_names) names →
  (∀ k, k < length (requested names) → ∃ output, subprocess_call w k = Returned 0 output) →
  (covers names → is_Some (get_coverage (coverage_xml_after w))) →
  ∃ to_run,
    choose_to_run w names = inr to_run
    ∧ map name to_run = requested names
    ∧ command w 0 names =
        (print_with_rainbow_colors ASCII_ART_LOGO ++ map (λ t, call (cmd t) true) to_run,
         Exit 0).
Proof.
  intros Hall Hpass Hcov.
  destruct (choose_to_run_valid w names Hall) as (to_run & Hc & Hnames).
  assert (Hlen : length (requested names) = length to_run).
  { by rewrite <- Hnames, length_map. }
  rewrite Hlen in Hpass.
  unfold covers in Hcov. rewrite <- Hnames, <- report_coverage_iff in Hcov.
  exists to_run. split; [done|]. split; [done|].
  unfold command. rewrite Hc, (run_tests_quiet w to_run 0 _ Hpass).
  cbn [failures failure_outputs out]. unfold start. cbn [failures failure_outputs out].
  unfold report_failure_outputs. cbn [failure_outputs length Nat.ltb Nat.leb].
  assert (Hannounce : ∀ a b : message,
    (if decide (to_run = TESTTYPES w) then echo 0 a 1 true None else echo 0 b 1 true None)
    = []) by (intros a b; by case_decide).
  rewrite Hannounce, !app_nil_r.
  destruct (existsb _ to_run); [|done].
  destruct (Hcov eq_refl) as [after ->].
  unfold report_coverage_lines, echo. cbn [Nat.ltb Nat.leb app].
  destruct (get_coverage (coverage_xml_before w)) as [before|]; [|by rewrite app_nil_r].
  repeat case_match; by rewrite app_nil_r.
Qed.

Lemma quiet_run_prints_the_banner_only_witness :
  Forall (λ n, n ∈ known_names) ["bandit"]
  ∧ (∀ k, k < length (requested ["bandit"]) →
       ∃ output, subprocess_call calm_world k = Returned 0 output)
  ∧ (covers ["bandit"] → is_Some (get_coverage (coverage_xml_after calm_world)))
  ∧ ∃ to_run,
      choose_to_run calm_world ["bandit"] = inr to_run
      ∧ map name to_run = requested ["bandit"]
      ∧ command calm_world 0 ["bandit"] =
          (print_with_rainbow_colors ASCII_ART_LOGO ++ map (λ t, call (cmd t) true) to_run,
           Exit 0).
Proof.
  assert (H1 : Forall (λ n, n ∈ known_names) ["bandit"]).
  { apply (bool_decide_unpack _). exact I. }
  assert (H2 : ∀ k, k < length (requested ["bandit"]) →
                 ∃ output, subprocess_call calm_world k = Returned 0 output).
  { intros k _. exists "ok". reflexivity. }
  assert (H3 : covers ["bandit"] → is_Some (get_coverage (coverage_xml_after calm_world))).
  { intros _. exists 0.75%float. reflexivity. }
  do 3 (split; [assumption|]).
  exact (quiet_run_prints_the_banner_only calm_world ["bandit"] H1 H2 H3).
Defined.

(** ** Which element is read *)





End UltratestExtra.

(** * Further properties of the data-capture admin *)

Module AdminExtra.
Import Admin.
Import AdminSpec.

(** ** Unique email addresses *)

(** X11. [clean_email] returns the address when no user holds it, the user
    being edited set aside, and otherwise raises [ValidationError]: an
    address held by another user is never accepted, and a user keeps their
    own. *)
Theorem clean_email_accepts_unused_only (users : gmap nat User)
    (instance : option (option nat)) (address : string) :
  match clean_email users instance address with
  | inr cleaned =>
      cleaned = address
      ∧ ∀ pk u, users !! pk = Some u → email u = address → instance = Some (Some pk)
  | inl e =>
      e = ValidationError "That email address is already in use."
      ∧ ∃ pk u, users !! pk = Some u ∧ email u = address ∧ instance ≠ Some (Some pk)
  end.
Proof.
  unfold clean_email.
  match goal with |- context [filter ?P (map_to_list users)] =>
    destruct (filter P (map_to_list users)) as [|[pk u] l] eqn:Hf end.
  - cbn. split; [done|]. intros pk u Hpk Hemail.
    destruct (decide (instance = Some (Some pk))) as [|Hne]; [done|]. exfalso.
    apply (filter_nil_not_elem_of _ _ (pk, u) Hf); [|by apply elem_of_map_to_list].
    cbn. apply Is_true_true.
    destruct instance as [[own|]|]; rewrite ?andb_true_iff, ?bool_decide_eq_true;
      try done.
    split; [done|]. apply negb_true_iff, bool_decide_eq_false. congruence.
  - cbn. split; [done|].
    assert (Hin : (pk, u) ∈ filter
      (λ r : nat * User,
         match instance with
         | Some (Some own) =>
             λ pk u, bool_decide (email u = address) && negb (bool_decide (pk = own))
         | _ => λ _ u, bool_decide (email u = address)
         end r.1 r.2) (map_to_list users)).
    { rewrite Hf. apply list_elem_of_here. }
    apply list_elem_of_filter in Hin as [Hqs Hin]. apply elem_of_map_to_list in Hin.
    exists pk, u. split; [done|]. cbn in Hqs. apply Is_true_true in Hqs.
    destruct instance as [[own|]|].
    + apply andb_true_iff in Hqs as [He Hpk].
      apply bool_decide_eq_true in He. apply negb_true_iff, bool_decide_eq_false in Hpk.
      split; [done|]. congruence.
    + apply bool_decide_eq_true in Hqs. done.
    + apply bool_decide_eq_true in Hqs. done.
Qed.

Example clean_email_sample :
  clean_email sample_users (Some (Some 1)) "staff@example.com" = inr "staff@example.com"
  ∧ clean_email sample_users (Some None) "staff@example.com"
    = inl (ValidationError "That email address is already in use.")
  ∧ clean_email sample_users (Some (Some 1)) "root@example.com"
    = inl (ValidationError "That email address is already in use.").
Proof. repeat split; vm_compute; reflexivity. Qed.

(** ** What a user who is no superuser can reach *)



(** ** More on generated usernames *)

Lemma str_of_nat_parse n :
  option_map Nat.of_uint (NilZero.uint_of_string (str_of_nat n)) = Some n.
Proof.
  unfold str_of_nat. destruct (Nat.to_uint n) as [| | | | | | | | | |] eqn:Hd.
  1: { rewrite NilZero.usu_nil. cbn. f_equal.
       rewrite <- (DecimalNat.Unsigned.of_to n), Hd. reflexivity. }
  all: rewrite NilZero.usu by discriminate; cbn [option_map]; f_equal;
       rewrite <- Hd; apply DecimalNat.Unsigned.of_to.
Qed.

Lemma str_of_nat_inj i j : str_of_nat i = str_of_nat j → i = j.
Proof.
  intros Heq. pose proof (str_of_nat_parse i) as Hi.
  rewrite Heq, str_of_nat_parse in Hi. by injection Hi.
Qed.

Lemma str_of_nat_nonempty i : str_of_nat i ≠ EmptyString.
Proof.
  intros Heq. pose proof (str_of_nat_parse i) as Hi. rewrite Heq in Hi. discriminate Hi.
Qed.

Lemma append_inv_head (a b c : string) : a +:+ b = a +:+ c → b = c.
Proof. induction a as [|x a IH]; cbn; [done|]. intros [= H]. by apply IH. Qed.

Lemma append_self_inv (a b : string) : a = a +:+ b → b = EmptyString.
Proof. induction a as [|x a IH]; cbn; [done|]. intros [= H]. by apply IH. Qed.

Lemma candidate_inj basename i j : candidate basename i = candidate basename j → i = j.
Proof.
  unfold candidate. destruct (decide (i = 0)) as [->|Hi], (decide (j = 0)) as [->|Hj].
  - done.
  - intros H. apply append_self_inv in H. by apply str_of_nat_nonempty in H.
  - intros H. symmetry in H. apply append_self_inv in H.
    by apply str_of_nat_nonempty in H.
  - intros H. by apply append_inv_head, str_of_nat_inj in H.
Qed.

Lemma generate_username_free slugify users address n u :
  generate_username slugify users address n = inr u →
  ∀ x, x ∈ users → username x ≠ u.
Proof.
  unfold generate_username.
  pose proof (first_free_spec users (basename_of slugify address) n 0) as Hspec.
  destruct (first_free users (basename_of slugify address) 0 n) as [v|]; [|done].
  intros [= <-]. destruct Hspec as (k & _ & _ & Hfree & _).
  by apply username_exists_false.
Qed.

(** X13. The candidate names are pairwise distinct, so [generate_username]
    can only run out of attempts when the table holds at least that many
    users: with fewer than [max_attempts] users it returns a name; with no
    attempt at all it raises. *)
Theorem generate_username_succeeds_in_a_small_table
    (slugify : string → string) (users : list User) (address : string)
    (max_attempts : nat) :
  (∀ basename i j, candidate basename i = candidate basename j → i = j)
  ∧ (length users < max_attempts →
     ∃ u, generate_username slugify users address max_attempts = inr u)
  ∧ (max_attempts = 0 →
     ∃ e, generate_username slugify users address max_attempts = inl e).
Proof.
  split; [apply candidate_inj|]. unfold generate_username. split.
  - intros Hsmall.
    pose proof (first_free_spec users (basename_of slugify address) max_attempts 0)
      as Hspec.
    destruct (first_free users (basename_of slugify address) 0 max_attempts) as [u|];
      [by exists u|].
    exfalso.
    assert (Hnd : NoDup (candidate (basename_of slugify address) <$> seq 0 max_attempts)).
    { apply NoDup_fmap_2_strong; [|apply NoDup_seq].
      intros i j _ _. apply candidate_inj. }
    assert (Hsub : candidate (basename_of slugify address) <$> seq 0 max_attempts
                   ⊆+ username <$> users).
    { apply NoDup_submseteq; [done|]. intros c Hc.
      apply list_elem_of_fmap in Hc as (i & -> & Hi). apply elem_of_seq in Hi.
      destruct (proj1 (username_exists_true users _) (Hspec i ltac:(lia)))
        as (x & Hx & Hname).
      rewrite <- Hname. by apply list_elem_of_fmap_2. }
    apply submseteq_length in Hsub. rewrite !length_fmap, length_seq in Hsub. lia.
  - intros ->. cbn. eauto.
Qed.

Lemma generate_username_succeeds_in_a_small_table_witness :
  length [staff] < default_max_attempts
  ∧ ∃ u, generate_username slugify_ascii [staff] "Staff@example.com" default_max_attempts
         = inr u.
Proof.
  assert (H : length [staff] < default_max_attempts).
  { apply (bool_decide_unpack _). exact I. }
  split; [exact H|].
  exact (proj1 (proj2 (generate_username_succeeds_in_a_small_table slugify_ascii [staff]
                         "Staff@example.com" default_max_attempts)) H).
Defined.

Lemma length_append (a b : string) :
  String.length (a +:+ b) = String.length a + String.length b.
Proof.
  induction a as [|x a IH]; [done|].
  change (S (String.length (a +:+ b)) = S (String.length a + String.length b)).
  by rewrite IH.
Qed.

Lemma length_substring_0 n (s : string) : String.length (substring 0 n s) ≤ n.
Proof.
  revert s. induction n as [|n IH]; intros [|c s]; cbn; try lia.
  specialize (IH s). lia.
Qed.

Lemma length_str_of_nat_below_100 i : i < 100 → String.length (str_of_nat i) ≤ 2.
Proof.
  intros Hi.
  assert (H : Forall (λ i, String.length (str_of_nat i) ≤ 2) (seq 0 100)).
  { apply (bool_decide_unpack _). vm_compute. exact I. }
  rewrite Forall_forall in H. apply H. apply elem_of_seq. lia.
Qed.

(** X14. With its default of 100 attempts, a name returned by
    [generate_username] has at most 17 characters: at most 15 of the slug and
    at most two digits. *)
Theorem generated_username_is_short (slugify : string → string) (users : list User)
    (address : string) (u : string) :
  generate_username slugify users address default_max_attempts = inr u →
  String.length u ≤ 17.
Proof.
  unfold generate_username, default_max_attempts.
  pose proof (first_free_spec users (basename_of slugify address) 100 0) as Hspec.
  destruct (first_free users (basename_of slugify address) 0 100) as [v|]; [|done].
  intros [= <-]. destruct Hspec as (k & Hk & -> & _).
  pose proof (length_substring_0 15 (slugify (before_at address))) as Hbase.
  fold (basename_of slugify address) in Hbase.
  unfold candidate. case_decide; [lia|].
  rewrite length_append. pose proof (length_str_of_nat_below_100 k). lia.
Qed.

Lemma generated_username_is_short_witness :
  generate_username slugify_ascii [] "a.very.long.local.part.indeed@example.com"
    default_max_attempts = inr "averylonglocalp"
  ∧ String.length "averylonglocalp" ≤ 17.
Proof.
  assert (H : generate_username slugify_ascii [] "a.very.long.local.part.indeed@example.com"
                default_max_attempts = inr "averylonglocalp").
  { vm_compute. reflexivity. }
  split; [exact H|].
  exact (generated_username_is_short slugify_ascii []
           "a.very.long.local.part.indeed@example.com" "averylonglocalp" H).
Defined.

(** ** Cleaning and saving the creation form *)

(** X15. [clean] returns the cleaned data as they are when they hold no
    email, or an empty one. When they hold one, it returns them with
    [username] set to a name that no user has, every other key as it was;
    or it raises what [generate_username] raises for that email. *)
Theorem clean_sets_a_free_username (slugify : string → string) (users : list User)
    (cleaned_data : gmap string string) :
  match clean slugify users cleaned_data with
  | inr cleaned =>
      (cleaned_data !! "email" = None ∨ cleaned_data !! "email" = Some EmptyString) ∧
        cleaned = cleaned_data
      ∨ ∃ address u,
          cleaned_data !! "email" = Some address ∧ address ≠ EmptyString
          ∧ cleaned = <["username" := u]> cleaned_data
          ∧ (∀ x, x ∈ users → username x ≠ u)
          ∧ ∀ key, key ≠ "username" → cleaned !! key = cleaned_data !! key
  | inl e =>
      ∃ address,
        cleaned_data !! "email" = Some address ∧ address ≠ EmptyString
        ∧ generate_username slugify users address default_max_attempts = inl e
  end.
Proof.
  unfold clean. destruct (cleaned_data !! "email") as [address|] eqn:Hemail.
  - destruct (decide (address = EmptyString)) as [->|Hne].
    + left. split; [by right|done].
    + destruct (generate_username slugify users address default_max_attempts)
        as [e|u] eqn:Hgen; cbn.
      * by exists address.
      * right. exists address, u. split; [done|]. split; [done|]. split; [done|].
        split; [exact (generate_username_free _ _ _ _ _ Hgen)|].
        intros key Hkey. by rewrite lookup_insert_ne.
  - left. split; [by left|done].
Qed.



(** ** The four change lists *)

Lemma screen_queryset_true sc (qs : QuerySet) pk p :
  screen_queryset sc qs pk p = true ↔
  qs pk p = true ∧ status p = match sc with
                              | Approved => STATUS_APPROVED
                              | New => STATUS_NEW
                              | Rejected => STATUS_REJECTED
                              | Unapproved => STATUS_UNAPPROVED
                              end.
Proof. destruct sc; apply filter_status_true. Qed.

(** X17. The four registered change lists split the price lists between
    them: a price list of the framework's queryset is on exactly one of
    them, the one of its status, and a price list outside that queryset is
    on none. *)
Theorem each_price_list_is_on_one_screen (qs : QuerySet) (pk : nat)
    (p : SubmittedPriceList) :
  (qs pk p = true →
     ∃ sc, screen_queryset sc qs pk p = true
           ∧ ∀ sc', screen_queryset sc' qs pk p = true → sc' = sc)
  ∧ (qs pk p = false → ∀ sc, screen_queryset sc qs pk p = false).
Proof.
  split.
  - intros Hqs.
    exists (match status p with
            | STATUS_APPROVED => Approved
            | STATUS_NEW => New
            | STATUS_REJECTED => Rejected
            | STATUS_UNAPPROVED => Unapproved
            end).
    split.
    + apply screen_queryset_true. split; [done|]. by destruct (status p).
    + intros sc' Hsc'. apply screen_queryset_true in Hsc' as [_ Hst].
      rewrite Hst. by destruct sc'.
  - intros Hqs sc. apply not_true_iff_false. rewrite screen_queryset_true.
    intros [? _]. congruence.
Qed.

Lemma each_price_list_is_on_one_screen_witness :
  everything 3 (price_list_with STATUS_REJECTED) = true
  ∧ ∃ sc, screen_queryset sc everything 3 (price_list_with STATUS_REJECTED) = true
          ∧ ∀ sc', screen_queryset sc' everything 3 (price_list_with STATUS_REJECTED) = true
                   → sc' = sc.
Proof.
  split; [reflexivity|].
  exact (proj1 (each_price_list_is_on_one_screen everything 3
                  (price_list_with STATUS_REJECTED)) eq_refl).
Defined.

(** ** Actions and the change list they are offered on *)

(** The rows an action takes from the queryset of a change list are all the
    rows of that queryset. *)
Ltac on_its_screen :=
  intros ? ?;
  rewrite ?exclude_status_true, ?filter_status_true, !screen_queryset_true;
  split; [by intros [? _]|];
  let Hst := fresh "Hst" in
  intros [? Hst]; (split; [done|]); rewrite ?Hst; done.

Section offered.
Variables model_approve model_unapprove model_reject :
  User → SubmittedPriceList → SubmittedPriceList.
Variable req : request.
Variable qs : QuerySet.
Variable s : site.

(** X18. Each change list offers the actions that act on all it shows:
    [approve] and [reject] on the new price lists, [unapprove] on the
    approved ones, [approve] on the rejected and on the unapproved ones.
    Applied to the queryset of its change list, an action changes every
    price list of that queryset, and its message counts them all. *)
Theorem offered_actions_act_on_all_selected :
  screen_actions New = [Approve; Reject]
  ∧ screen_actions Approved = [Unapprove]
  ∧ screen_actions Rejected = [Approve]
  ∧ screen_actions Unapproved = [Approve]
  ∧ transitions_only (λ pk p, screen_queryset New qs pk p = true)
      (model_approve (user req)) price_list_approved
      " price list(s) have been approved and added to CALC."
      s (approve model_approve req (screen_queryset New qs) s)
  ∧ transitions_only (λ pk p, screen_queryset New qs pk p = true)
      (model_reject (user req)) price_list_rejected
      " price list(s) have been rejected."
      s (reject model_reject req (screen_queryset New qs) s)
  ∧ transitions_only (λ pk p, screen_queryset Approved qs pk p = true)
      (model_unapprove (user req)) price_list_unapproved
      " price list(s) have been unapproved and removed from CALC."
      s (unapprove model_unapprove req (screen_queryset Approved qs) s)
  ∧ transitions_only (λ pk p, screen_queryset Rejected qs pk p = true)
      (model_approve (user req)) price_list_approved
      " price list(s) have been approved and added to CALC."
      s (approve model_approve req (screen_queryset Rejected qs) s)
  ∧ transitions_only (λ pk p, screen_queryset Unapproved qs pk p = true)
      (model_approve (user req)) price_list_approved
      " price list(s) have been approved and added to CALC."
      s (approve model_approve req (screen_queryset Unapproved qs) s).
Proof.
  do 4 (split; [reflexivity|]).
  split; [|split; [|split; [|split]]].
  - eapply transitions_only_iff;
      [|apply (action_transitions_only model_approve price_list_approved req)].
    on_its_screen.
  - eapply transitions_only_iff;
      [|apply (action_transitions_only model_reject price_list_rejected req)].
    on_its_screen.
  - eapply transitions_only_iff;
      [|apply (action_transitions_only model_unapprove price_list_unapproved req)].
    on_its_screen.
  - eapply transitions_only_iff;
      [|apply (action_transitions_only model_approve price_list_approved req)].
    on_its_screen.
  - eapply transitions_only_iff;
      [|apply (action_transitions_only model_approve price_list_approved req)].
    on_its_screen.
Qed.

(** X19. An action does nothing on a change list that does not offer it:
    [approve] on the approved price lists, [unapprove] on the new, rejected
    and unapproved ones, and [reject] on the approved, rejected and
    unapproved ones change no price list and send no mail, whatever the
    model methods do; the message counts 0. *)
Theorem other_actions_change_nothing :
  changes_nothing " price list(s) have been approved and added to CALC."
    s (approve model_approve req (screen_queryset Approved qs) s)
  ∧ (∀ sc, sc ≠ Approved →
       changes_nothing " price list(s) have been unapproved and removed from CALC."
         s (unapprove model_unapprove req (screen_queryset sc qs) s))
  ∧ (∀ sc, sc ≠ New →
       changes_nothing " price list(s) have been rejected."
         s (reject model_reject req (screen_queryset sc qs) s)).
Proof.
  split; [|split].
  - apply (action_changes_nothing model_approve price_list_approved req).
    intros pk p _. apply not_true_iff_false.
    rewrite exclude_status_true, (screen_queryset_true Approved). by intros [[_ ?] ?].
  - intros sc Hsc.
    apply (action_changes_nothing model_unapprove price_list_unapproved req).
    intros pk p _. apply not_true_iff_false.
    rewrite filter_status_true, screen_queryset_true. intros [[_ Hst] Hst'].
    rewrite Hst' in Hst. by destruct sc.
  - intros sc Hsc.
    apply (action_changes_nothing model_reject price_list_rejected req).
    intros pk p _. apply not_true_iff_false.
    rewrite filter_status_true, screen_queryset_true. intros [[_ Hst] Hst'].
    rewrite Hst' in Hst. by destruct sc.
Qed.

End offered.

Lemma other_actions_change_nothing_witness :
  Rejected ≠ New
  ∧ changes_nothing " price list(s) have been rejected."
      sample_site
      (reject (set_status STATUS_REJECTED) sample_request
         (screen_queryset Rejected everything) sample_site).
Proof.
  assert (H : Rejected ≠ New) by discriminate.
  split; [exact H|].
  exact (proj2 (proj2 (other_actions_change_nothing (set_status STATUS_APPROVED)
                         (set_status STATUS_UNAPPROVED) (set_status STATUS_REJECTED)
                         sample_request everything sample_site)) Rejected H).
Defined.

(** X20. When the model methods leave a price list APPROVED, UNAPPROVED and
    REJECTED, and the framework's queryset selects by primary key, an action
    moves what it changes to another change list: [approve] from the new,
    rejected or unapproved price lists to the approved ones, [unapprove]
    from the approved to the unapproved ones, [reject] from the new to the
    rejected ones. *)
Theorem actions_move_between_screens
    (model_approve model_unapprove model_reject : User → SubmittedPriceList → SubmittedPriceList)
    (req : request) (qs : QuerySet) (s : site) (pk : nat) (p : SubmittedPriceList) :
  (∀ u p, status (model_approve u p) = STATUS_APPROVED) →
  (∀ u p, status (model_unapprove u p) = STATUS_UNAPPROVED) →
  (∀ u p, status (model_reject u p) = STATUS_REJECTED) →
  (∀ pk p p', qs pk p = qs pk p') →
  price_lists s !! pk = Some p →
  (∀ sc, sc ≠ Approved → screen_queryset sc qs pk p = true →
     ∃ p', price_lists (approve model_approve req (screen_queryset sc qs) s) !! pk = Some p'
           ∧ screen_queryset Approved qs pk p' = true
           ∧ screen_queryset sc qs pk p' = false)
  ∧ (screen_queryset Approved qs pk p = true →
     ∃ p', price_lists (unapprove model_unapprove req (screen_queryset Approved qs) s) !! pk
           = Some p'
           ∧ screen_queryset Unapproved qs pk p' = true
           ∧ screen_queryset Approved qs pk p' = false)
  ∧ (screen_queryset New qs pk p = true →
     ∃ p', price_lists (reject model_reject req (screen_queryset New qs) s) !! pk = Some p'
           ∧ screen_queryset Rejected qs pk p' = true
           ∧ screen_queryset New qs pk p' = false).
Proof.
  intros Happrove Hunapprove Hreject Hpk_only Hpk.
  split; [|split].
  - intros sc Hsc Hon.
    destruct (action_transitions_only model_approve price_list_approved req
                (exclude_status STATUS_APPROVED (screen_queryset sc qs))
                " price list(s) have been approved and added to CALC." s)
      as (Hyes & _).
    apply screen_queryset_true in Hon as [Hq Hst].
    exists (model_approve (user req) p). split.
    + apply Hyes; [done|]. apply exclude_status_true. split.
      * by apply screen_queryset_true.
      * rewrite Hst. by destruct sc.
    + split.
      * apply screen_queryset_true. split; [|by apply Happrove].
        by rewrite (Hpk_only pk _ p).
      * apply not_true_iff_false. rewrite screen_queryset_true, Happrove.
        intros [_ Hst']. by destruct sc.
  - intros Hon.
    destruct (action_transitions_only model_unapprove price_list_unapproved req
                (filter_status STATUS_APPROVED (screen_queryset Approved qs))
                " price list(s) have been unapproved and removed from CALC." s)
      as (Hyes & _).
    pose proof Hon as Hon'. apply (screen_queryset_true Approved) in Hon' as [Hq Hst].
    exists (model_unapprove (user req) p). split.
    + apply Hyes; [done|]. by apply filter_status_true.
    + split.
      * apply (screen_queryset_true Unapproved). split; [|by apply Hunapprove].
        by rewrite (Hpk_only pk _ p).
      * apply not_true_iff_false. rewrite (screen_queryset_true Approved), Hunapprove.
        by intros [_ ?].
  - intros Hon.
    destruct (action_transitions_only model_reject price_list_rejected req
                (filter_status STATUS_NEW (screen_queryset New qs))
                " price list(s) have been rejected." s)
      as (Hyes & _).
    pose proof Hon as Hon'. apply (screen_queryset_true New) in Hon' as [Hq Hst].
    exists (model_reject (user req) p). split.
    + apply Hyes; [done|]. by apply filter_status_true.
    + split.
      * apply (screen_queryset_true Rejected). split; [|by apply Hreject].
        by rewrite (Hpk_only pk _ p).
      * apply not_true_iff_false. rewrite (screen_queryset_true New), Hreject.
        by intros [_ ?].
Qed.

Lemma actions_move_between_screens_witness :
  (∀ u p, status (set_status STATUS_APPROVED u p) = STATUS_APPROVED)
  ∧ (∀ u p, status (set_status STATUS_UNAPPROVED u p) = STATUS_UNAPPROVED)
  ∧ (∀ u p, status (set_status STATUS_REJECTED u p) = STATUS_REJECTED)
  ∧ (∀ pk p p', everything pk p = everything pk p')
  ∧ price_lists sample_site !! 1 = Some (price_list_with STATUS_NEW)
  ∧ screen_queryset New everything 1 (price_list_with STATUS_NEW) = true
  ∧ ∃ p', price_lists (reject (set_status STATUS_REJECTED) sample_request
                         (screen_queryset New everything) sample_site) !! 1 = Some p'
          ∧ screen_queryset Rejected everything 1 p' = true
          ∧ screen_queryset New everything 1 p' = false.
Proof.
  assert (H1 : ∀ u p, status (set_status STATUS_APPROVED u p) = STATUS_APPROVED)
    by reflexivity.
  assert (H2 : ∀ u p, status (set_status STATUS_UNAPPROVED u p) = STATUS_UNAPPROVED)
    by reflexivity.
  assert (H3 : ∀ u p, status (set_status STATUS_REJECTED u p) = STATUS_REJECTED)
    by reflexivity.
  assert (H4 : ∀ pk p p', everything pk p = everything pk p') by reflexivity.
  assert (H5 : price_lists sample_site !! 1 = Some (price_list_with STATUS_NEW)).
  { vm_compute. reflexivity. }
  assert (H6 : screen_queryset New everything 1 (price_list_with STATUS_NEW) = true)
    by reflexivity.
  do 6 (split; [assumption|]).
  exact (proj2 (proj2 (actions_move_between_screens (set_status STATUS_APPROVED)
                         (set_status STATUS_UNAPPROVED) (set_status STATUS_REJECTED)
                         sample_request everything sample_site 1
                         (price_list_with STATUS_NEW) H1 H2 H3 H4 H5)) H6).
Defined.

(** ** The rows of approved price lists *)

(** X21. The row change list shows a row exactly when the framework's
    queryset holds it and its price list is not APPROVED. So a row shown
    there, where [is_muted] can be edited, is never a row of a price list on
    the approved change list, and the form of its price list is not all
    read-only. *)
Theorem rows_of_approved_lists_are_hidden (t : table) (qs : SubmittedPriceListRow → bool)
    (req : request) (r : SubmittedPriceListRow) (p : SubmittedPriceList) :
  t !! price_list r = Some p →
  (rows_get_queryset t qs r = true ↔ qs r = true ∧ status p ≠ STATUS_APPROVED)
  ∧ (rows_get_queryset t qs r = true →
       screen_queryset Approved everything (price_list r) p = false
       ∧ BaseSubmittedPriceListAdmin.get_readonly_fields req (Some p)
         = BaseSubmittedPriceListAdmin.readonly_fields
       ∧ rows_vendor_name t r = Some (vendor_name p)).
Proof.
  intros Hp.
  assert (Hiff : rows_get_queryset t qs r = true ↔ qs r = true ∧ status p ≠ STATUS_APPROVED).
  { unfold rows_get_queryset. rewrite Hp. cbn.
    rewrite andb_true_iff, negb_true_iff, bool_decide_eq_false.
    split; intros [? Hst]; (split; [done|]); congruence. }
  split; [done|]. intros Hshown. apply Hiff in Hshown as [_ Hst]. split; [|split].
  - apply not_true_iff_false. rewrite (screen_queryset_true Approved). by intros [_ ?].
  - unfold BaseSubmittedPriceListAdmin.get_readonly_fields. by rewrite decide_False.
  - unfold rows_vendor_name. by rewrite Hp.
Qed.

Lemma rows_of_approved_lists_are_hidden_witness :
  price_lists sample_site !! price_list {| price_list := 2; labor_category := "Engineer";
                                            is_muted := false |}
    = Some (price_list_with STATUS_APPROVED)
  ∧ (rows_get_queryset (price_lists sample_site) (λ _, true)
       {| price_list := 2; labor_category := "Engineer"; is_muted := false |} = true
     ↔ (λ _ : SubmittedPriceListRow, true)
         {| price_list := 2; labor_category := "Engineer"; is_muted := false |} = true
       ∧ status (price_list_with STATUS_APPROVED) ≠ STATUS_APPROVED).
Proof.
  assert (H : price_lists sample_site
                !! price_list {| price_list := 2; labor_category := "Engineer";
                                 is_muted := false |}
              = Some (price_list_with STATUS_APPROVED)).
  { vm_compute. reflexivity. }
  split; [exact H|].
  exact (proj1 (rows_of_approved_lists_are_hidden (price_lists sample_site) (λ _, true)
                  sample_request
                  {| price_list := 2; labor_category := "Engineer"; is_muted := false |}
                  (price_list_with STATUS_APPROVED) H)).
Defined.

End AdminExtra.
